(** * Rule validation of the Kyverno policy API (api/kyverno/v1/rule_types.go)

    A shallow embedding of [Rule] and of its validation methods
    [ValidateRuleType], [ValidateMathExcludeConflict], [Validate],
    [MatchKinds] and [ExcludeKinds], together with the properties the
    specification states about them. *)

From Stdlib Require Import Ascii String.
From stdpp Require Import base decidable option list strings gmap.

Local Open Scope string_scope.
Local Open Scope nat_scope.
Local Open Scope list_scope.

(** ** Go values

    A Go slice, map or pointer may be nil, and [reflect.DeepEqual] tells a
    nil slice (or map) from an empty one.  A slice is therefore an optional
    list, a map an optional finite map and a pointer an optional value, with
    [None] for nil.  On these representations two values are deeply equal
    exactly when they are equal. *)

Abbreviation slice A := (option (list A)) (only parsing).
Abbreviation gomap K V := (option (gmap K V)) (only parsing).
Abbreviation ptr A := (option A) (only parsing).

(** The elements a [range] loop visits; nil has none. *)
Definition elems {A : Type} (s : slice A) : list A := default [] s.

(** [len(s)]. *)
Definition len {A : Type} (s : slice A) : nat := List.length (elems s).

(** [append(s, xs...)]: appending nothing to nil leaves nil. *)
Definition go_append {A : Type} (s : slice A) (xs : list A) : slice A :=
  match s, xs with
  | None, [] => None
  | _, _ => Some (elems s ++ xs)
  end.

(** [len(m)] of a map. *)
Definition maplen {V : Type} (m : gomap string V) : nat :=
  match m with None => 0 | Some g => size g end.

(** [m[k]] on a [map[string]string]: an absent key (or a nil map) reads as
    the zero value, the empty string. *)
Definition index (m : gomap string string) (k : string) : string :=
  match m with None => "" | Some g => default "" (g !! k) end.

(** The entries a [range] loop over a map visits (in no particular order). *)
Definition entries {V : Type} (m : gomap string V) : list (string * V) :=
  match m with None => [] | Some g => map_to_list g end.

(** ** k8s.io/apimachinery/pkg/util/sets: [sets.String] *)

Definition sets_NewString (items : list string) : gset string := list_to_set items.
Definition sets_Has {K : Type} `{Countable K} (s : gset K) (item : K) : bool :=
  bool_decide (item ∈ s).
Definition sets_HasAll (s : gset string) (items : list string) : bool :=
  forallb (sets_Has s) items.

(** ** github.com/minio/pkg/wildcard

    [wildcard.Match(pattern, name)] with the wildcards [*] and [?].  The
    library walks the runes of both strings; here the characters of a
    string are its bytes, which is the same for ASCII names.  [Match] calls
    [deepMatchRune] with [simple = false], the only case kept here. *)

Definition star : ascii := "*"%char.
Definition qmark : ascii := "?"%char.

Fixpoint deepMatchRune (pattern : list ascii) : list ascii -> bool :=
  match pattern with
  | [] => fun str => match str with [] => true | _ :: _ => false end
  | p :: pattern' =>
      if Ascii.eqb p star then
        fix at_star (str : list ascii) : bool :=
          deepMatchRune pattern' str
          || match str with [] => false | _ :: str' => at_star str' end
      else if Ascii.eqb p qmark then
        fun str => match str with [] => false | _ :: str' => deepMatchRune pattern' str' end
      else
        fun str =>
          match str with
          | [] => false
          | c :: str' => if Ascii.eqb c p then deepMatchRune pattern' str' else false
          end
  end.

Definition wildcard_Match (pattern name : string) : bool :=
  if String.eqb pattern "" then String.eqb name pattern
  else if String.eqb pattern "*" then true
  else deepMatchRune (list_ascii_of_string pattern) (list_ascii_of_string name).

(** ** k8s.io/api/rbac/v1 and k8s.io/apimachinery/pkg/apis/meta/v1 *)

Record Subject := {
  subj_Kind : string;
  subj_APIGroup : string;
  subj_Name : string;
  subj_Namespace : string;
}.

Record LabelSelectorRequirement := {
  Key : string;
  Operator : string;
  Values : slice string;
}.

Record LabelSelector := {
  MatchLabels : gomap string string;
  MatchExpressions : slice LabelSelectorRequirement;
}.

#[export] Instance Subject_eq_dec : EqDecision Subject.
Proof. solve_decision. Defined.
#[export] Instance LabelSelectorRequirement_eq_dec : EqDecision LabelSelectorRequirement.
Proof. solve_decision. Defined.
#[export] Instance LabelSelector_eq_dec : EqDecision LabelSelector.
Proof. solve_decision. Defined.

(** ** encoding/json, as the detector uses it

    The detector marshals a subject or a match expression only to use the
    text as the key of a [sets.String].  Two values get the same text
    exactly when their exported fields agree, where a field tagged
    [omitempty] is left out alike when it is nil and when it is empty
    ([values] of a requirement).  The key is kept as the tuple of these
    fields instead of the rendered text. *)

Definition json_Marshal_Subject (s : Subject) : string * string * string * string :=
  (subj_Kind s, subj_APIGroup s, subj_Name s, subj_Namespace s).

Definition json_Marshal_LabelSelectorRequirement (e : LabelSelectorRequirement)
  : string * string * list string :=
  (Key e, Operator e, elems (Values e)).

(** ** Types of the package declared outside rule_types.go *)

(** Modelled from the spec: the declaration of [UserInfo] is in another file
    of the package; the identity part of a ResourceSelector, with the
    fields [roles], [clusterRoles] and [subjects] the detector reads. *)
Record UserInfo := {
  Roles : slice string;
  ClusterRoles : slice string;
  Subjects : slice Subject;
}.

(** Modelled from the spec: the declaration of [ResourceDescription] is in
    another file of the package; the resource part of a ResourceSelector,
    with the fields the methods of [Rule] read. *)
Record ResourceDescription := {
  Kinds : slice string;
  Name : string;
  Names : slice string;
  Namespaces : slice string;
  Annotations : gomap string string;
  Selector : ptr LabelSelector;
  NamespaceSelector : ptr LabelSelector;
}.

(** Modelled from the spec: the declaration of [ResourceFilter] is in
    another file of the package; an entry of an [any] or [all] list, which
    embeds a [UserInfo] and a [ResourceDescription]. *)
Record ResourceFilter := {
  rf_UserInfo : UserInfo;
  rf_ResourceDescription : ResourceDescription;
}.

(** Modelled from the spec: the declaration of [MatchResources] is in
    another file of the package; the CompositeSelector, a direct selector
    (the embedded [UserInfo] and [ResourceDescription]) plus the lists
    [any] and [all]. *)
Record MatchResources := {
  Any : slice ResourceFilter;
  All : slice ResourceFilter;
  mr_UserInfo : UserInfo;
  mr_ResourceDescription : ResourceDescription;
}.

#[export] Instance UserInfo_eq_dec : EqDecision UserInfo.
Proof. solve_decision. Defined.
#[export] Instance ResourceDescription_eq_dec : EqDecision ResourceDescription.
Proof. solve_decision. Defined.
#[export] Instance ResourceFilter_eq_dec : EqDecision ResourceFilter.
Proof. solve_decision. Defined.
#[export] Instance MatchResources_eq_dec : EqDecision MatchResources.
Proof. solve_decision. Defined.

(** The zero values [UserInfo{}], [ResourceDescription{}] and
    [MatchResources{}]: every slice, map and pointer nil, every string
    empty. *)
Definition UserInfo_zero : UserInfo :=
  {| Roles := None; ClusterRoles := None; Subjects := None |}.

Definition ResourceDescription_zero : ResourceDescription :=
  {| Kinds := None; Name := ""; Names := None; Namespaces := None;
     Annotations := None; Selector := None; NamespaceSelector := None |}.

Definition MatchResources_zero : MatchResources :=
  {| Any := None; All := None;
     mr_UserInfo := UserInfo_zero;
     mr_ResourceDescription := ResourceDescription_zero |}.

(** The payload types of a rule are declared in other files of the package
    and are opaque to the methods below, which only compare them with their
    zero value.  They are taken as parameters: a type with decidable
    equality (deep equality) and its zero value [T{}]. *)
Class Payloads := {
  ContextEntry : Type;
  JSON : Type;
  Mutation : Type;
  Validation : Type;
  Generation : Type;
  ImageVerification : Type;
  ContextEntry_eq_dec :: EqDecision ContextEntry;
  JSON_eq_dec :: EqDecision JSON;
  Mutation_eq_dec :: EqDecision Mutation;
  Validation_eq_dec :: EqDecision Validation;
  Generation_eq_dec :: EqDecision Generation;
  ImageVerification_eq_dec :: EqDecision ImageVerification;
  Mutation_zero : Mutation;
  Validation_zero : Validation;
  Generation_zero : Generation;
  ImageVerification_zero : ImageVerification;
}.

(** ** k8s.io/apimachinery/pkg/util/validation/field *)

(** A [*field.Path]: nil, or a parent path extended by a name. *)
Inductive Path :=
  | NilPath
  | ChildPath (parent : Path) (name : string).

Definition Child (p : Path) (name : string) : Path := ChildPath p name.

Inductive ErrorType :=
  | ErrorTypeNotFound
  | ErrorTypeRequired
  | ErrorTypeDuplicate
  | ErrorTypeInvalid
  | ErrorTypeNotSupported
  | ErrorTypeForbidden
  | ErrorTypeTooLong
  | ErrorTypeTooMany
  | ErrorTypeInternal.

Section RuleTypes.
Context `{Payloads}.

(** ** Rule (rule_types.go, lines 18-62)

    The fields carry the prefix [rule_]: [Name], [MatchResources],
    [Mutation] and the others already name a field or a type above. *)

Record Rule := {
  rule_Name : string;
  rule_Context : slice ContextEntry;
  rule_MatchResources : MatchResources;
  rule_ExcludeResources : MatchResources;
  rule_RawAnyAllConditions : ptr JSON;
  rule_Mutation : Mutation;
  rule_Validation : Validation;
  rule_Generation : Generation;
  rule_VerifyImages : slice (ptr ImageVerification);
}.

#[export] Instance Rule_eq_dec : EqDecision Rule.
Proof. solve_decision. Defined.

(** A value boxed as [interface{}], as [reflect.DeepEqual] and
    [field.Invalid] receive it: the constructor is the dynamic type. *)
Inductive GoValue :=
  | any_Mutation (v : Mutation)
  | any_Validation (v : Validation)
  | any_Generation (v : Generation)
  | any_ImageVerification (v : ImageVerification)
  | any_ImageVerifications (v : slice (ptr ImageVerification))
  | any_Annotations (v : gomap string string)
  | any_ResourceFilter (v : ResourceFilter)
  | any_MatchResources (v : MatchResources)
  | any_Rule (v : Rule).

#[export] Instance GoValue_eq_dec : EqDecision GoValue.
Proof. solve_decision. Defined.

(** [reflect.DeepEqual(x, y)]: values of distinct types are never deeply
    equal; values of one type are compared structurally. *)
Definition reflect_DeepEqual (x y : GoValue) : bool := bool_decide (x = y).

(** A [*field.Error]; [Field] is kept as the path it is rendered from. *)
Record FieldError := {
  err_Type : ErrorType;
  err_Field : Path;
  err_BadValue : GoValue;
  err_Detail : string;
}.

Definition ErrorList := list FieldError.

Definition field_Invalid (field : Path) (value : GoValue) (detail : string) : FieldError :=
  {| err_Type := ErrorTypeInvalid; err_Field := field;
     err_BadValue := value; err_Detail := detail |}.

(** ** The effect predicates (lines 64-82) *)

Definition HasMutate (r : Rule) : bool :=
  negb (reflect_DeepEqual (any_Mutation (rule_Mutation r)) (any_Mutation Mutation_zero)).

Definition HasVerifyImages (r : Rule) : bool :=
  negb (bool_decide (rule_VerifyImages r = None))
  && negb (reflect_DeepEqual (any_ImageVerifications (rule_VerifyImages r))
                             (any_ImageVerification ImageVerification_zero)).

Definition HasValidate (r : Rule) : bool :=
  negb (reflect_DeepEqual (any_Validation (rule_Validation r)) (any_Validation Validation_zero)).

Definition HasGenerate (r : Rule) : bool :=
  negb (reflect_DeepEqual (any_Generation (rule_Generation r)) (any_Generation Generation_zero)).

(** ** MatchKinds and ExcludeKinds (lines 84-107)

    The result is built by [append] from the direct kinds; what it holds
    does not depend on whether [append] reuses their backing array. *)

Definition MatchKinds (r : Rule) : slice string :=
  let matchKinds := Kinds (mr_ResourceDescription (rule_MatchResources r)) in
  let matchKinds :=
    fold_left (fun matchKinds value =>
                 go_append matchKinds (elems (Kinds (rf_ResourceDescription value))))
              (elems (All (rule_MatchResources r))) matchKinds in
  let matchKinds :=
    fold_left (fun matchKinds value =>
                 go_append matchKinds (elems (Kinds (rf_ResourceDescription value))))
              (elems (Any (rule_MatchResources r))) matchKinds in
  matchKinds.

Definition ExcludeKinds (r : Rule) : slice string :=
  let excludeKinds := Kinds (mr_ResourceDescription (rule_ExcludeResources r)) in
  let excludeKinds :=
    fold_left (fun excludeKinds value =>
                 go_append excludeKinds (elems (Kinds (rf_ResourceDescription value))))
              (elems (All (rule_ExcludeResources r))) excludeKinds in
  let excludeKinds :=
    fold_left (fun excludeKinds value =>
                 go_append excludeKinds (elems (Kinds (rf_ResourceDescription value))))
              (elems (Any (rule_ExcludeResources r))) excludeKinds in
  excludeKinds.

(** ** ValidateRuleType (lines 117-133) *)

Definition noOperationDetail (name : string) : string :=
  "No operation defined in the rule '" +:+ name
  +:+ "'.(supported operations: mutate,validate,generate,verifyImages)".

Definition multipleOperationsDetail (name : string) : string :=
  "Multiple operations defined in the rule '" +:+ name
  +:+ "', only one operation (mutate,validate,generate,verifyImages) is allowed per rule".

Definition ValidateRuleType (r : Rule) (path : Path) : ErrorList :=
  let errs : ErrorList := [] in
  let ruleTypes := [HasMutate r; HasValidate r; HasGenerate r; HasVerifyImages r] in
  let count := fold_left (fun count (v : bool) => if v then S count else count) ruleTypes 0 in
  if (count =? 0) then
    errs ++ [field_Invalid path (any_Rule r) (noOperationDetail (rule_Name r))]
  else if negb (count =? 1) then
    errs ++ [field_Invalid path (any_Rule r) (multipleOperationsDetail (rule_Name r))]
  else errs.

(** ** Early return

    A statement of a function body either returns from the function with a
    result ([Some]) or falls through to the next statement ([None]). *)

Definition stmt := option ErrorList.

Definition seq (s k : stmt) : stmt :=
  match s with
  | Some result => Some result
  | None => k
  end.

Notation "s ;> k" := (seq s k) (at level 65, right associativity).

(** [if c { return result }]. *)
Definition return_if (c : bool) (result : ErrorList) : stmt :=
  if c then Some result else None.

(** [for _, x := range xs { body }], where the body may return. *)
Fixpoint range {A : Type} (xs : list A) (body : A -> stmt) : stmt :=
  match xs with
  | [] => None
  | x :: xs' => body x ;> range xs' body
  end.

(** ** ValidateMathExcludeConflict (lines 135-298)

    The body is a sequence of blocks, one per dimension, each of which may
    return; they are named here and put in sequence below.  The named
    result [errs] is never assigned, so it is the nil list throughout. *)

Section Detector.
Variable r : Rule.
Variable path : Path.

Local Abbreviation errs := (@nil FieldError).
Local Abbreviation m := (rule_MatchResources r).
Local Abbreviation e := (rule_ExcludeResources r).
Local Abbreviation mUser := (mr_UserInfo (rule_MatchResources r)).
Local Abbreviation eUser := (mr_UserInfo (rule_ExcludeResources r)).
Local Abbreviation mRes := (mr_ResourceDescription (rule_MatchResources r)).
Local Abbreviation eRes := (mr_ResourceDescription (rule_ExcludeResources r)).

(** [field.Invalid(path, r, ...)] with the detector's only message. *)
Definition emptySetError : FieldError :=
  field_Invalid path (any_Rule r) "Rule is matching an empty set".

(** Lines 137-139. *)
Definition chkAll : stmt :=
  return_if ((0 <? len (All e)) || (0 <? len (All m))) errs.

(** Lines 140-150. *)
Definition chkAny : stmt :=
  if (0 <? len (Any m)) && (0 <? len (Any e)) then
    range (elems (Any m)) (fun rmr =>
      range (elems (Any e)) (fun rer =>
        return_if (reflect_DeepEqual (any_ResourceFilter rmr) (any_ResourceFilter rer))
                  (errs ++ [emptySetError]))) ;>
    Some errs
  else None.

(** Lines 151-153. *)
Definition chkEmptyExclude : stmt :=
  return_if (reflect_DeepEqual (any_MatchResources e) (any_MatchResources MatchResources_zero))
            errs.

(** Lines 154-176: the exclude side as sets. *)
Definition excludeRoles : gset string := sets_NewString (elems (Roles eUser)).
Definition excludeClusterRoles : gset string := sets_NewString (elems (ClusterRoles eUser)).
Definition excludeKinds : gset string := sets_NewString (elems (Kinds eRes)).
Definition excludeNamespaces : gset string := sets_NewString (elems (Namespaces eRes)).
Definition excludeSubjects : gset (string * string * string * string) :=
  list_to_set (json_Marshal_Subject <$> elems (Subjects eUser)).
Definition excludeSelectorMatchExpressions : gset (string * string * list string) :=
  match Selector eRes with
  | Some sel => list_to_set (json_Marshal_LabelSelectorRequirement <$> elems (MatchExpressions sel))
  | None => ∅
  end.
Definition excludeNamespaceSelectorMatchExpressions : gset (string * string * list string) :=
  match NamespaceSelector eRes with
  | Some sel => list_to_set (json_Marshal_LabelSelectorRequirement <$> elems (MatchExpressions sel))
  | None => ∅
  end.

(** Lines 177-181. *)
Definition chkRoles : stmt :=
  if (0 <? size excludeRoles) then
    return_if ((len (Roles mUser) =? 0)
               || negb (sets_HasAll excludeRoles (elems (Roles mUser)))) errs
  else None.

(** Lines 182-186. *)
Definition chkClusterRoles : stmt :=
  if (0 <? size excludeClusterRoles) then
    return_if ((len (ClusterRoles mUser) =? 0)
               || negb (sets_HasAll excludeClusterRoles (elems (ClusterRoles mUser)))) errs
  else None.

(** Lines 187-197. *)
Definition chkSubjects : stmt :=
  if (0 <? size excludeSubjects) then
    return_if (len (Subjects mUser) =? 0) errs ;>
    range (elems (Subjects mUser)) (fun subject =>
      return_if (negb (sets_Has excludeSubjects (json_Marshal_Subject subject))) errs)
  else None.

(** Lines 198-202. *)
Definition chkName : stmt :=
  if negb (String.eqb (Name eRes) "") then
    return_if (negb (wildcard_Match (Name eRes) (Name mRes))) errs
  else None.

(** Lines 203-223. *)
Definition chkNames : stmt :=
  if (0 <? len (Names eRes)) then
    let excludeSlice := elems (Names eRes) in
    let matchSlice := elems (Names mRes) in
    return_if (len (Names mRes) =? 0) errs ;>
    range matchSlice (fun matchName =>
      range excludeSlice (fun excludeName =>
        return_if (wildcard_Match excludeName matchName) (errs ++ [emptySetError]))) ;>
    Some errs
  else None.

(** Lines 224-228. *)
Definition chkNamespaces : stmt :=
  if (0 <? size excludeNamespaces) then
    return_if ((len (Namespaces mRes) =? 0)
               || negb (sets_HasAll excludeNamespaces (elems (Namespaces mRes)))) errs
  else None.

(** Lines 229-233. *)
Definition chkKinds : stmt :=
  if (0 <? size excludeKinds) then
    return_if ((len (Kinds mRes) =? 0)
               || negb (sets_HasAll excludeKinds (elems (Kinds mRes)))) errs
  else None.

(** Lines 234-256. *)
Definition chkSelector : stmt :=
  match Selector mRes, Selector eRes with
  | Some mSel, Some eSel =>
      (if (0 <? size excludeSelectorMatchExpressions) then
         return_if (len (MatchExpressions mSel) =? 0) errs ;>
         range (elems (MatchExpressions mSel)) (fun matchExpression =>
           return_if (negb (sets_Has excludeSelectorMatchExpressions
                              (json_Marshal_LabelSelectorRequirement matchExpression))) errs)
       else None) ;>
      (if (0 <? maplen (MatchLabels eSel)) then
         return_if (maplen (MatchLabels mSel) =? 0) errs ;>
         range (entries (MatchLabels mSel)) (fun '(label, value) =>
           return_if (negb (String.eqb (index (MatchLabels eSel) label) value)) errs)
       else None)
  | _, _ => None
  end.

(** Lines 257-279. *)
Definition chkNamespaceSelector : stmt :=
  match NamespaceSelector mRes, NamespaceSelector eRes with
  | Some mSel, Some eSel =>
      (if (0 <? size excludeNamespaceSelectorMatchExpressions) then
         return_if (len (MatchExpressions mSel) =? 0) errs ;>
         range (elems (MatchExpressions mSel)) (fun matchExpression =>
           return_if (negb (sets_Has excludeNamespaceSelectorMatchExpressions
                              (json_Marshal_LabelSelectorRequirement matchExpression))) errs)
       else None) ;>
      (if (0 <? maplen (MatchLabels eSel)) then
         return_if (maplen (MatchLabels mSel) =? 0) errs ;>
         range (entries (MatchLabels mSel)) (fun '(label, value) =>
           return_if (negb (String.eqb (index (MatchLabels eSel) label) value)) errs)
       else None)
  | _, _ => None
  end.

(** Lines 280-283. *)
Definition chkSelectorPresence : stmt :=
  return_if ((bool_decide (Selector mRes = None) && negb (bool_decide (Selector eRes = None)))
             || (negb (bool_decide (Selector mRes = None)) && bool_decide (Selector eRes = None)))
            errs.

(** Lines 284-287. *)
Definition chkNamespaceSelectorPresence : stmt :=
  return_if ((bool_decide (NamespaceSelector mRes = None)
              && negb (bool_decide (NamespaceSelector eRes = None)))
             || (negb (bool_decide (NamespaceSelector mRes = None))
                 && bool_decide (NamespaceSelector eRes = None)))
            errs.

(** Lines 288-292. *)
Definition chkAnnotations : stmt :=
  if negb (bool_decide (Annotations mRes = None)) && negb (bool_decide (Annotations eRes = None))
  then
    return_if (negb (reflect_DeepEqual (any_Annotations (Annotations mRes))
                                       (any_Annotations (Annotations eRes)))) errs
  else None.

(** Lines 293-296. *)
Definition chkAnnotationsPresence : stmt :=
  return_if ((bool_decide (Annotations mRes = None) && negb (bool_decide (Annotations eRes = None)))
             || (negb (bool_decide (Annotations mRes = None))
                 && bool_decide (Annotations eRes = None)))
            errs.

(** The blocks that come before the names list (lines 137-202). *)
Definition beforeNames : stmt :=
  chkAll ;> chkAny ;> chkEmptyExclude ;>
  chkRoles ;> chkClusterRoles ;> chkSubjects ;> chkName.

(** The blocks that come after the names list (lines 224-297), ending in
    the final return. *)
Definition afterNames : stmt :=
  chkNamespaces ;> chkKinds ;>
  chkSelector ;> chkNamespaceSelector ;>
  chkSelectorPresence ;> chkNamespaceSelectorPresence ;>
  chkAnnotations ;> chkAnnotationsPresence ;>
  Some (errs ++ [emptySetError]).

(** The blocks other than the [any] block and the names block, in the order
    of the source. *)
Definition guards : list stmt :=
  [chkAll; chkEmptyExclude; chkRoles; chkClusterRoles; chkSubjects; chkName;
   chkNamespaces; chkKinds; chkSelector; chkNamespaceSelector;
   chkSelectorPresence; chkNamespaceSelectorPresence;
   chkAnnotations; chkAnnotationsPresence].

Definition ValidateMathExcludeConflict : ErrorList :=
  default errs (beforeNames ;> chkNames ;> afterNames).

End Detector.

(** ** Validate (lines 300-308)

    [MatchResources.Validate] is declared in another file of the package
    and is a parameter here.  The local [errs] is threaded through the four
    assignments. *)

Section Validate.
Variable MatchResources_Validate :
  MatchResources -> Path -> bool -> gset string -> ErrorList.

Definition Validate (r : Rule) (path : Path) (namespaced : bool)
    (clusterResources : gset string) : ErrorList :=
  let errs : ErrorList := [] in
  let errs := errs ++ ValidateRuleType r path in
  let errs := errs ++ ValidateMathExcludeConflict r path in
  let errs := errs ++ MatchResources_Validate (rule_MatchResources r) (Child path "match")
                        namespaced clusterResources in
  let errs := errs ++ MatchResources_Validate (rule_ExcludeResources r) (Child path "exclude")
                        namespaced clusterResources in
  errs.

End Validate.

End RuleTypes.

Notation "s ;> k" := (seq s k) (at level 65, right associativity).

(** ** Concrete rules

    An instance of the payload types for concrete rules: every payload is a
    piece of raw text, the zero value being the empty text. *)

#[export] Instance text_payloads : Payloads := {|
  ContextEntry := string;
  JSON := string;
  Mutation := string;
  Validation := string;
  Generation := string;
  ImageVerification := string;
  Mutation_zero := "";
  Validation_zero := "";
  Generation_zero := "";
  ImageVerification_zero := "";
|}.

(** A direct selector with only its kinds, namespaces and names set. *)
Definition resources (kinds namespaces names : slice string) : ResourceDescription :=
  {| Kinds := kinds; Name := ""; Names := names; Namespaces := namespaces;
     Annotations := None; Selector := None; NamespaceSelector := None |}.

(** A composite selector without identities. *)
Definition selector (any all : slice ResourceFilter) (res : ResourceDescription)
  : MatchResources :=
  {| Any := any; All := all; mr_UserInfo := UserInfo_zero; mr_ResourceDescription := res |}.

(** An [any] or [all] entry that selects by kinds only. *)
Definition kindsFilter (kinds : list string) : ResourceFilter :=
  {| rf_UserInfo := UserInfo_zero;
     rf_ResourceDescription := resources (Some kinds) None None |}.

(** A rule named [rule] with the given selectors and effects. *)
Definition mkRule (mat exc : MatchResources) (mutation validation generation : string)
    (verifyImages : slice (ptr string)) : Rule :=
  {| rule_Name := "rule"; rule_Context := None;
     rule_MatchResources := mat; rule_ExcludeResources := exc;
     rule_RawAnyAllConditions := None;
     rule_Mutation := mutation; rule_Validation := validation;
     rule_Generation := generation; rule_VerifyImages := verifyImages |}.

(** A validating rule with the given selectors. *)
Definition validating (mat exc : MatchResources) : Rule :=
  mkRule mat exc "" "pattern" "" None.

(** The path under which the rules of a policy are validated. *)
Definition rulesPath : Path := Child (Child NilPath "spec") "rules".

(** [match.any] has a Pod entry and a Deployment entry, [exclude.any] only
    the Pod entry. *)
Definition ruleAnyOneCommon : Rule :=
  validating
    (selector (Some [kindsFilter ["Pod"]; kindsFilter ["Deployment"]]) None
              ResourceDescription_zero)
    (selector (Some [kindsFilter ["Pod"]]) None ResourceDescription_zero).

(** [match.names] has a name the exclude pattern matches and one it does
    not. *)
Definition ruleNamesOneMatched : Rule :=
  validating
    (selector None None (resources None None (Some ["pod-a"; "web"])))
    (selector None None (resources None None (Some ["pod-*"]))).

Definition appInWeb : LabelSelectorRequirement :=
  {| Key := "app"; Operator := "In"; Values := Some ["web"] |}.
Definition tierExists : LabelSelectorRequirement :=
  {| Key := "tier"; Operator := "Exists"; Values := None |}.

(** A direct selector with only its label selector set. *)
Definition labelled (sel : LabelSelector) : MatchResources :=
  selector None None
    {| Kinds := None; Name := ""; Names := None; Namespaces := None;
       Annotations := None; Selector := Some sel; NamespaceSelector := None |}.

Definition matchSelectorSmall : LabelSelector :=
  {| MatchLabels := Some {[ "app" := "web" ]};
     MatchExpressions := Some [appInWeb] |}.
Definition excludeSelectorLarge : LabelSelector :=
  {| MatchLabels := Some (<[ "tier" := "db" ]> {[ "app" := "web" ]});
     MatchExpressions := Some [appInWeb; tierExists] |}.

(** The match selector has one expression and one label; the exclude
    selector has both and one more of each. *)
Definition ruleSelectorSubset : Rule :=
  validating (labelled matchSelectorSmall) (labelled excludeSelectorLarge).

(** The exclude side has a kinds list that is present but empty, and
    nothing else. *)
Definition ruleEmptyKindsExclude : Rule :=
  validating
    (selector None None (resources (Some ["Pod"]) None None))
    (selector None None (resources (Some []) None None)).

(** The same direct kinds on both sides, and an [all] list on the match
    side. *)
Definition ruleWithAll : Rule :=
  validating
    (selector None (Some [kindsFilter ["Pod"]]) (resources (Some ["Pod"]) None None))
    (selector None None (resources (Some ["Pod"]) None None)).

Definition ruleProdStaging : Rule :=
  validating
    (selector None None (resources None (Some ["prod"; "staging"]) None))
    (selector None None (resources None (Some ["prod"]) None)).

Definition rulePodAndDeployment : Rule :=
  validating
    (selector (Some [kindsFilter ["Deployment"]]) None (resources (Some ["Pod"]) None None))
    MatchResources_zero.

(** A mutating rule whose verifyImages list is present but empty. *)
Definition ruleMutateEmptyImages : Rule :=
  mkRule MatchResources_zero MatchResources_zero "patch" "" "" (Some []).

Definition alice : Subject :=
  {| subj_Kind := "User"; subj_APIGroup := "rbac.authorization.k8s.io";
     subj_Name := "alice"; subj_Namespace := "" |}.
Definition bob : Subject :=
  {| subj_Kind := "User"; subj_APIGroup := "rbac.authorization.k8s.io";
     subj_Name := "bob"; subj_Namespace := "" |}.

(** A direct selector with only its identities set. *)
Definition identities (roles clusterRoles : slice string) (subjects : slice Subject)
  : MatchResources :=
  {| Any := None; All := None;
     mr_UserInfo := {| Roles := roles; ClusterRoles := clusterRoles; Subjects := subjects |};
     mr_ResourceDescription := ResourceDescription_zero |}.

(** The roles, cluster roles and subjects of the match side are among those
    of the exclude side. *)
Definition ruleIdentities : Rule :=
  validating
    (identities (Some ["admin"]) (Some ["view"]) (Some [alice]))
    (identities (Some ["admin"; "dev"]) (Some ["view"]) (Some [alice; bob])).

(** A direct selector with only its single name set. *)
Definition named (name : string) : MatchResources :=
  selector None None
    {| Kinds := None; Name := name; Names := None; Namespaces := None;
       Annotations := None; Selector := None; NamespaceSelector := None |}.


(** The match side has no name, the exclude side a name of two stars. *)
Definition ruleStarName : Rule := validating (named "") (named "**").

(** The same kinds, namespaces and name patterns on both sides. *)
Definition ruleIdentical : Rule :=
  validating
    (selector None None (resources (Some ["Pod"]) (Some ["prod"]) (Some ["pod-*"])))
    (selector None None (resources (Some ["Pod"]) (Some ["prod"]) (Some ["pod-*"]))).

(** * Properties *)

(** ** Slices, sets and loops *)

Lemma len_zero_elems {A : Type} (s : slice A) : len s = 0 ↔ elems s = [].
Proof. unfold len. destruct (elems s); simpl; split; intros; (done || lia). Qed.

Lemma len_pos_elems {A : Type} (s : slice A) : 0 < len s ↔ elems s ≠ [].
Proof. rewrite <- len_zero_elems. lia. Qed.

Lemma elems_go_append {A : Type} (s : slice A) (xs : list A) :
  elems (go_append s xs) = elems s ++ xs.
Proof. destruct s as [l|], xs; reflexivity. Qed.

Lemma size_list_to_set_zero `{Countable K} (l : list K) :
  size (list_to_set (C:=gset K) l) = 0 ↔ l = [].
Proof.
  rewrite size_empty_iff. split.
  - destruct l as [|x l]; [done|]. intros Hempty.
    assert (x ∈ (list_to_set (x :: l) : gset K)) as Hx
      by (apply elem_of_list_to_set; left).
    rewrite Hempty in Hx. by apply not_elem_of_empty in Hx.
  - by intros ->.
Qed.

Lemma sets_Has_list_to_set `{Countable K} (l : list K) (x : K) :
  sets_Has (list_to_set l) x = true ↔ x ∈ l.
Proof. unfold sets_Has. rewrite bool_decide_eq_true. apply elem_of_list_to_set. Qed.

Lemma sets_HasAll_NewString (l items : list string) :
  sets_HasAll (sets_NewString l) items = true ↔ ∀ x, x ∈ items → x ∈ l.
Proof.
  unfold sets_HasAll, sets_NewString. rewrite forallb_forall. split.
  - intros Hall x Hx. apply sets_Has_list_to_set, Hall. by apply list_elem_of_In.
  - intros Hall x Hx. apply sets_Has_list_to_set, Hall. by apply list_elem_of_In.
Qed.

Section Properties.
Context `{Payloads}.

Lemma seq_None (s k : stmt) : s ;> k = None ↔ s = None ∧ k = None.
Proof. destruct s; simpl; intuition congruence. Qed.

Lemma return_if_None (c : bool) (res : ErrorList) : return_if c res = None ↔ c = false.
Proof. destruct c; simpl; intuition congruence. Qed.

(** A loop falls through exactly when its body does at every element. *)
Lemma range_None {A : Type} (xs : list A) (body : A → stmt) :
  range xs body = None ↔ ∀ x, x ∈ xs → body x = None.
Proof.
  induction xs as [|x xs IH]; simpl.
  - split; [intros _ x Hx; by apply elem_of_nil in Hx | done].
  - rewrite seq_None, IH. split.
    + intros [Hx Hxs] y Hy. apply elem_of_cons in Hy as [->|Hy]; auto.
    + intros Hall. split; [apply Hall; left | intros y Hy; apply Hall; by right].
Qed.

(** A loop returns only what its body returns at some element. *)
Lemma range_Some {A : Type} (xs : list A) (body : A → stmt) (res : ErrorList) :
  range xs body = Some res → ∃ x, x ∈ xs ∧ body x = Some res.
Proof.
  induction xs as [|x xs IH]; simpl; [done|].
  destruct (body x) as [res'|] eqn:Hx; simpl.
  - intros [= <-]. exists x. split; [left | done].
  - intros Hxs. destruct (IH Hxs) as (y & Hy & Hbody). exists y. split; [by right | done].
Qed.

(** A loop whose body can only return [res] returns [res] as soon as the
    condition holds at some element. *)
Lemma range_return_if {A : Type} (xs : list A) (c : A → bool) (res : ErrorList) :
  range xs (λ x, return_if (c x) res) = return_if (existsb c xs) res.
Proof.
  induction xs as [|x xs IH]; simpl; [done|].
  rewrite IH. by destruct (c x).
Qed.

Lemma range_range_return_if {A B : Type} (xs : list A) (ys : list B)
    (c : A → B → bool) (res : ErrorList) :
  range xs (λ x, range ys (λ y, return_if (c x y) res))
  = return_if (existsb (λ x, existsb (c x) ys) xs) res.
Proof.
  induction xs as [|x xs IH]; simpl; [done|].
  rewrite IH, range_return_if. by destruct (existsb (c x) ys).
Qed.

Lemma existsb_true_iff {A : Type} (c : A → bool) (xs : list A) :
  existsb c xs = true ↔ ∃ x, x ∈ xs ∧ c x = true.
Proof.
  rewrite existsb_exists. split; intros (x & Hx & Hc); exists x; split; try done;
    by apply list_elem_of_In.
Qed.

Lemma reflect_DeepEqual_true (x y : GoValue) : reflect_DeepEqual x y = true ↔ x = y.
Proof. unfold reflect_DeepEqual. apply bool_decide_eq_true. Qed.

(** ** The [all] lists (C5) *)

(** C5: if [match.all] or [exclude.all] is non-empty, the conflict detector
    returns no error, whatever the other fields hold. *)
Theorem all_populated_no_error (r : Rule) (path : Path) :
  0 < len (All (rule_MatchResources r)) ∨ 0 < len (All (rule_ExcludeResources r)) →
  ValidateMathExcludeConflict r path = [].
Proof.
  intros Hall. unfold ValidateMathExcludeConflict, beforeNames.
  assert (chkAll r = Some []) as ->; [|done].
  unfold chkAll.
  destruct Hall as [Hm|He].
  - apply Nat.ltb_lt in Hm. rewrite Hm, orb_true_r. done.
  - apply Nat.ltb_lt in He. rewrite He. done.
Qed.


(** ** The [any] lists (C1) *)

(** What the block of lines 140-150 returns when both [any] lists are
    non-empty. *)
Lemma chkAny_populated (r : Rule) (path : Path) :
  0 < len (Any (rule_MatchResources r)) →
  0 < len (Any (rule_ExcludeResources r)) →
  chkAny r path =
    Some (if existsb (λ rmr, existsb (λ rer,
                 reflect_DeepEqual (any_ResourceFilter rmr) (any_ResourceFilter rer))
                               (elems (Any (rule_ExcludeResources r))))
                     (elems (Any (rule_MatchResources r)))
          then [emptySetError r path] else []).
Proof.
  intros Hm He. unfold chkAny.
  apply Nat.ltb_lt in Hm, He. rewrite Hm, He. simpl.
  rewrite (range_range_return_if _ _
             (λ rmr rer, reflect_DeepEqual (any_ResourceFilter rmr) (any_ResourceFilter rer))).
  by destruct (existsb _ _).
Qed.

(** C1, as the code has it: when neither [all] list is populated and both
    [match.any] and [exclude.any] are non-empty, the conflict detector
    returns the single empty-set error if some entry of [match.any] is
    structurally identical to some entry of [exclude.any], and returns no
    error if no entry of [match.any] is. *)
Theorem any_conflict_some_common_entry (r : Rule) (path : Path) :
  len (All (rule_MatchResources r)) = 0 →
  len (All (rule_ExcludeResources r)) = 0 →
  0 < len (Any (rule_MatchResources r)) →
  0 < len (Any (rule_ExcludeResources r)) →
  ((∃ rmr, rmr ∈ elems (Any (rule_MatchResources r))
           ∧ rmr ∈ elems (Any (rule_ExcludeResources r)))
     → ValidateMathExcludeConflict r path = [emptySetError r path])
  ∧ ((¬ ∃ rmr, rmr ∈ elems (Any (rule_MatchResources r))
               ∧ rmr ∈ elems (Any (rule_ExcludeResources r)))
     → ValidateMathExcludeConflict r path = []).
Proof.
  intros HmAll HeAll HmAny HeAny.
  unfold ValidateMathExcludeConflict, beforeNames.
  assert (chkAll r = None) as ->.
  { unfold chkAll. rewrite HmAll, HeAll. done. }
  simpl. rewrite (chkAny_populated r path HmAny HeAny). simpl.
  destruct (existsb _ _) eqn:Hcommon.
  - split; [done|]. intros Hnone. exfalso. apply Hnone.
    apply existsb_true_iff in Hcommon as (rmr & Hrmr & Hex).
    apply existsb_true_iff in Hex as (rer & Hrer & Heq).
    apply reflect_DeepEqual_true in Heq. injection Heq as <-. eauto.
  - split; [|done]. intros (rmr & Hrmr & Hrer). exfalso.
    assert (existsb (λ rmr, existsb (λ rer,
                       reflect_DeepEqual (any_ResourceFilter rmr) (any_ResourceFilter rer))
                       (elems (Any (rule_ExcludeResources r))))
                    (elems (Any (rule_MatchResources r))) = true) as Htrue; [|congruence].
    apply existsb_true_iff. exists rmr. split; [done|].
    apply existsb_true_iff. exists rmr. split; [done|]. by apply reflect_DeepEqual_true.
Qed.

(** ** The names list (C2) *)

(** What the block of lines 203-223 returns when [exclude.names] is
    non-empty: it always returns. *)
Lemma chkNames_populated (r : Rule) (path : Path) :
  0 < len (Names (mr_ResourceDescription (rule_ExcludeResources r))) →
  chkNames r path =
    Some (if (0 <? len (Names (mr_ResourceDescription (rule_MatchResources r))))
             && existsb (λ matchName, existsb (λ excludeName,
                           wildcard_Match excludeName matchName)
                           (elems (Names (mr_ResourceDescription (rule_ExcludeResources r)))))
                        (elems (Names (mr_ResourceDescription (rule_MatchResources r))))
          then [emptySetError r path] else []).
Proof.
  intros He. unfold chkNames. apply Nat.ltb_lt in He. rewrite He.
  rewrite (range_range_return_if _ _ (λ matchName excludeName,
             wildcard_Match excludeName matchName)).
  destruct (len (Names (mr_ResourceDescription (rule_MatchResources r)))) eqn:Hlen; simpl.
  - done.
  - by destruct (existsb _ _).
Qed.

(** C2, as the code has it: when [exclude.names] is non-empty and the
    earlier blocks did not decide the result, the conflict detector returns
    from the names block, with the empty-set error exactly when
    [match.names] is non-empty and some match-side name is matched by some
    exclude-side wildcard pattern, and with no error otherwise; the blocks
    for namespaces, kinds, selectors and annotations are not evaluated. *)
Theorem names_conflict_some_name_matched (r : Rule) (path : Path) :
  0 < len (Names (mr_ResourceDescription (rule_ExcludeResources r))) →
  beforeNames r path = None →
  (∃ result, chkNames r path = Some result ∧ ValidateMathExcludeConflict r path = result)
  ∧ (ValidateMathExcludeConflict r path = [emptySetError r path]
     ∨ ValidateMathExcludeConflict r path = [])
  ∧ (ValidateMathExcludeConflict r path = [emptySetError r path]
     ↔ 0 < len (Names (mr_ResourceDescription (rule_MatchResources r)))
       ∧ ∃ matchName excludeName,
           matchName ∈ elems (Names (mr_ResourceDescription (rule_MatchResources r)))
           ∧ excludeName ∈ elems (Names (mr_ResourceDescription (rule_ExcludeResources r)))
           ∧ wildcard_Match excludeName matchName = true).
Proof.
  intros He Hbefore. unfold ValidateMathExcludeConflict.
  rewrite Hbefore. simpl. rewrite (chkNames_populated r path He). simpl.
  split; [eauto|].
  destruct (0 <? len (Names (mr_ResourceDescription (rule_MatchResources r)))) eqn:Hm;
    simpl.
  - apply Nat.ltb_lt in Hm. destruct (existsb _ _) eqn:Hex.
    + split; [by left|]. split; [|done]. intros _. split; [done|].
      apply existsb_true_iff in Hex as (matchName & HmIn & Hex).
      apply existsb_true_iff in Hex as (excludeName & HeIn & Hmatch). eauto 6.
    + split; [by right|]. split; [done|].
      intros (_ & matchName & excludeName & HmIn & HeIn & Hmatch). exfalso.
      assert (existsb (λ matchName, existsb (λ excludeName,
                wildcard_Match excludeName matchName)
                (elems (Names (mr_ResourceDescription (rule_ExcludeResources r)))))
                (elems (Names (mr_ResourceDescription (rule_MatchResources r)))) = true)
        as Htrue; [|congruence].
      apply existsb_true_iff. exists matchName. split; [done|].
      apply existsb_true_iff. by exists excludeName.
  - apply Nat.ltb_ge in Hm. split; [by right|]. split; [done|]. intros [Hpos _]. lia.
Qed.

(** ** Which blocks can return an error *)

(** Apart from the [any] block and the names block, a block that returns
    returns no error. *)
Lemma range_return_nil {A : Type} (xs : list A) (body : A → stmt) (res : ErrorList) :
  (∀ x res', body x = Some res' → res' = []) → range xs body = Some res → res = [].
Proof. intros Hbody Hrange. apply range_Some in Hrange as (x & _ & Hx). eauto. Qed.

Lemma return_if_nil (c : bool) (res : ErrorList) : return_if c [] = Some res → res = [].
Proof. destruct c; simpl; congruence. Qed.

Lemma seq_nil (s k : stmt) (res : ErrorList) :
  (∀ res', s = Some res' → res' = []) → (∀ res', k = Some res' → res' = []) →
  s ;> k = Some res → res = [].
Proof. destruct s; simpl; eauto. Qed.

Ltac returns_nil :=
  repeat first
    [ progress intros
    | match goal with
      | Hr : return_if _ [] = Some _ |- _ => exact (return_if_nil _ _ Hr)
      | Hr : None = Some _ |- _ => discriminate Hr
      | Hr : (if ?c then _ else _) = Some _ |- _ => destruct c
      | Hr : match ?x with Some _ => _ | None => _ end = Some _ |- _ => destruct x
      | Hr : (let '(_, _) := ?p in _) = Some _ |- _ => destruct p
      | Hr : _ ;> _ = Some _ |- _ => revert Hr; apply seq_nil
      | Hr : range _ _ = Some _ |- _ => revert Hr; apply range_return_nil
      end ].

Lemma chkAll_nil r res : chkAll r = Some res → res = [].
Proof. unfold chkAll. returns_nil. Qed.
Lemma chkEmptyExclude_nil r res : chkEmptyExclude r = Some res → res = [].
Proof. unfold chkEmptyExclude. returns_nil. Qed.
Lemma chkRoles_nil r res : chkRoles r = Some res → res = [].
Proof. unfold chkRoles. returns_nil. Qed.
Lemma chkClusterRoles_nil r res : chkClusterRoles r = Some res → res = [].
Proof. unfold chkClusterRoles. returns_nil. Qed.
Lemma chkSubjects_nil r res : chkSubjects r = Some res → res = [].
Proof. unfold chkSubjects. returns_nil. Qed.
Lemma chkName_nil r res : chkName r = Some res → res = [].
Proof. unfold chkName. returns_nil. Qed.
Lemma chkNamespaces_nil r res : chkNamespaces r = Some res → res = [].
Proof. unfold chkNamespaces. returns_nil. Qed.
Lemma chkKinds_nil r res : chkKinds r = Some res → res = [].
Proof. unfold chkKinds. returns_nil. Qed.
Lemma chkSelector_nil r res : chkSelector r = Some res → res = [].
Proof. unfold chkSelector. returns_nil. Qed.
Lemma chkNamespaceSelector_nil r res : chkNamespaceSelector r = Some res → res = [].
Proof. unfold chkNamespaceSelector. returns_nil. Qed.
Lemma chkSelectorPresence_nil r res : chkSelectorPresence r = Some res → res = [].
Proof. unfold chkSelectorPresence. returns_nil. Qed.
Lemma chkNamespaceSelectorPresence_nil r res :
  chkNamespaceSelectorPresence r = Some res → res = [].
Proof. unfold chkNamespaceSelectorPresence. returns_nil. Qed.
Lemma chkAnnotations_nil r res : chkAnnotations r = Some res → res = [].
Proof. unfold chkAnnotations. returns_nil. Qed.
Lemma chkAnnotationsPresence_nil r res : chkAnnotationsPresence r = Some res → res = [].
Proof. unfold chkAnnotationsPresence. returns_nil. Qed.

Ltac pass_block lem :=
  match goal with
  | |- context [ ?g ;> _ ] =>
      let Hg := fresh "Hg" in
      destruct g as [res|] eqn:Hg;
      [ apply lem in Hg; subst res; right; split; [|done];
        repeat first [ by apply Exists_cons_hd | apply Exists_cons_tl ]
      | change (None ;> ?k) with k ]
  end.

(** When neither the [any] block nor the names block returns, the detector
    reports the empty set if every other block falls through, and nothing
    if one of them returns. *)
Lemma detector_by_guards (r : Rule) (path : Path) :
  chkAny r path = None → chkNames r path = None →
  (Forall (λ g, g = None) (guards r) ∧ ValidateMathExcludeConflict r path = [emptySetError r path])
  ∨ (Exists (λ g, g ≠ None) (guards r) ∧ ValidateMathExcludeConflict r path = []).
Proof.
  intros HAny HNames.
  unfold ValidateMathExcludeConflict, beforeNames, afterNames, guards.
  rewrite HAny, HNames.
  pass_block chkAll_nil. change (None ;> ?k) with k.
  pass_block chkEmptyExclude_nil. pass_block chkRoles_nil. pass_block chkClusterRoles_nil.
  pass_block chkSubjects_nil. pass_block chkName_nil. change (None ;> ?k) with k.
  pass_block chkNamespaces_nil. pass_block chkKinds_nil. pass_block chkSelector_nil.
  pass_block chkNamespaceSelector_nil. pass_block chkSelectorPresence_nil.
  pass_block chkNamespaceSelectorPresence_nil. pass_block chkAnnotations_nil.
  pass_block chkAnnotationsPresence_nil.
  left. split; [|done]. repeat constructor.
Qed.

(** The [any] block falls through when one of the [any] lists is empty, and
    the names block when [exclude.names] is. *)
Lemma chkAny_unpopulated (r : Rule) (path : Path) :
  len (Any (rule_MatchResources r)) = 0 ∨ len (Any (rule_ExcludeResources r)) = 0 →
  chkAny r path = None.
Proof.
  unfold chkAny. intros [-> | ->]; [done|]. by rewrite andb_false_r.
Qed.

Lemma chkNames_unpopulated (r : Rule) (path : Path) :
  len (Names (mr_ResourceDescription (rule_ExcludeResources r))) = 0 →
  chkNames r path = None.
Proof. unfold chkNames. by intros ->. Qed.

(** An error that comes from neither the [any] block nor the names block
    has passed every other block. *)
Lemma error_passes_guards (r : Rule) (path : Path) :
  len (Any (rule_MatchResources r)) = 0 ∨ len (Any (rule_ExcludeResources r)) = 0 →
  len (Names (mr_ResourceDescription (rule_ExcludeResources r))) = 0 →
  ValidateMathExcludeConflict r path ≠ [] →
  Forall (λ g, g = None) (guards r).
Proof.
  intros HAny HNames Herr.
  destruct (detector_by_guards r path (chkAny_unpopulated r path HAny)
              (chkNames_unpopulated r path HNames)) as [[Hguards _] | [_ Hnil]]; [done|].
  by destruct Herr.
Qed.

(** A block that returns, reached or not, rules out an error from the final
    return. *)
Lemma guard_returns_no_error (r : Rule) (path : Path) (g : stmt) :
  len (Any (rule_MatchResources r)) = 0 ∨ len (Any (rule_ExcludeResources r)) = 0 →
  len (Names (mr_ResourceDescription (rule_ExcludeResources r))) = 0 →
  g ∈ guards r → g ≠ None →
  ValidateMathExcludeConflict r path = [].
Proof.
  intros HAny HNames Hin Hg.
  destruct (ValidateMathExcludeConflict r path) as [|err errs] eqn:Hres; [done|].
  exfalso. apply Hg.
  assert (Forall (λ g, g = None) (guards r)) as Hall.
  { apply (error_passes_guards r path HAny HNames). by rewrite Hres. }
  rewrite Forall_forall in Hall. by apply Hall.
Qed.

(** ** Namespaces and kinds (C7) *)

(** The shape shared by the blocks for roles, cluster roles, namespaces and
    kinds: with a populated exclude side, the match side must be non-empty
    and within it. *)
Lemma containment_guard (exclude mat : slice string) :
  (if (0 <? size (sets_NewString (elems exclude))) then
     return_if ((len mat =? 0) || negb (sets_HasAll (sets_NewString (elems exclude)) (elems mat)))
               (@nil FieldError)
   else None) = None
  ↔ (elems exclude ≠ [] → elems mat ≠ [] ∧ ∀ x, x ∈ elems mat → x ∈ elems exclude).
Proof.
  destruct (0 <? size (sets_NewString (elems exclude))) eqn:Hsize.
  - apply Nat.ltb_lt in Hsize.
    assert (elems exclude ≠ []) as Hne.
    { intros Hnil. unfold sets_NewString in Hsize.
      apply size_list_to_set_zero in Hnil. rewrite Hnil in Hsize. lia. }
    rewrite return_if_None, orb_false_iff, negb_false_iff, Nat.eqb_neq,
      sets_HasAll_NewString, len_zero_elems.
    naive_solver.
  - apply Nat.ltb_ge in Hsize.
    assert (elems exclude = []) as Hnil.
    { apply (size_list_to_set_zero (K:=string)). unfold sets_NewString in Hsize. lia. }
    split; [intros _ Hne; by destruct Hne | done].
Qed.

(** C7: when [exclude.namespaces] (respectively [exclude.kinds]) is
    non-empty, the detector goes on past that block only if
    [match.namespaces] (respectively [match.kinds]) is non-empty and wholly
    contained in the exclude side, and so does every error of the final
    return.  With exclude namespaces [prod] and match namespaces
    [prod; staging] there is no error; with kinds [Pod] on both sides and
    nothing else set there is exactly one. *)
Theorem namespaces_kinds_containment (r : Rule) (path : Path) :
  let mRes := mr_ResourceDescription (rule_MatchResources r) in
  let eRes := mr_ResourceDescription (rule_ExcludeResources r) in
  let contained (mat exclude : slice string) :=
    elems mat ≠ [] ∧ ∀ x, x ∈ elems mat → x ∈ elems exclude in
  (0 < len (Namespaces eRes) →
     (chkNamespaces r = None ↔ contained (Namespaces mRes) (Namespaces eRes)))
  ∧ (0 < len (Kinds eRes) →
     (chkKinds r = None ↔ contained (Kinds mRes) (Kinds eRes)))
  ∧ ((len (Any (rule_MatchResources r)) = 0 ∨ len (Any (rule_ExcludeResources r)) = 0) →
     len (Names eRes) = 0 →
     ValidateMathExcludeConflict r path ≠ [] →
     (0 < len (Namespaces eRes) → contained (Namespaces mRes) (Namespaces eRes))
     ∧ (0 < len (Kinds eRes) → contained (Kinds mRes) (Kinds eRes)))
  ∧ ((len (Any (rule_MatchResources r)) = 0 ∨ len (Any (rule_ExcludeResources r)) = 0) →
     len (Names eRes) = 0 →
     Namespaces eRes = Some ["prod"] →
     Namespaces mRes = Some ["prod"; "staging"] →
     ValidateMathExcludeConflict r path = [])
  ∧ (rule_MatchResources r = selector None None (resources (Some ["Pod"]) None None) →
     rule_ExcludeResources r = selector None None (resources (Some ["Pod"]) None None) →
     ValidateMathExcludeConflict r path = [emptySetError r path]).
Proof.
  intros mRes eRes contained.
  assert (∀ mat exclude : slice string,
            0 < len exclude →
            ((elems exclude ≠ [] → contained mat exclude) ↔ contained mat exclude)) as Hpos.
  { intros mat exclude Hlen. apply len_pos_elems in Hlen. naive_solver. }
  split; [|split; [|split; [|split]]].
  - intros Hlen. rewrite <- (Hpos _ _ Hlen). apply containment_guard.
  - intros Hlen. rewrite <- (Hpos _ _ Hlen). apply containment_guard.
  - intros HAny HNames Herr.
    pose proof (error_passes_guards r path HAny HNames Herr) as Hguards.
    rewrite Forall_forall in Hguards.
    split; intros Hlen%len_pos_elems.
    + assert (chkNamespaces r = None) as Hguard
        by (apply Hguards; unfold guards; do 6 right; left).
      apply containment_guard in Hguard; done.
    + assert (chkKinds r = None) as Hguard
        by (apply Hguards; unfold guards; do 7 right; left).
      apply containment_guard in Hguard; done.
  - intros HAny HNames He Hm.
    apply (guard_returns_no_error r path (chkNamespaces r) HAny HNames).
    + unfold guards. do 6 right. left.
    + unfold chkNamespaces, excludeNamespaces. fold mRes eRes. rewrite He, Hm.
      vm_compute. discriminate.
  - intros Hm He.
    unfold ValidateMathExcludeConflict, beforeNames, afterNames, chkAll, chkAny,
      chkEmptyExclude, chkRoles, chkClusterRoles, chkSubjects, chkName, chkNames,
      chkNamespaces, chkKinds, chkSelector, chkNamespaceSelector, chkSelectorPresence,
      chkNamespaceSelectorPresence, chkAnnotations, chkAnnotationsPresence,
      excludeRoles, excludeClusterRoles, excludeSubjects, excludeNamespaces, excludeKinds.
    rewrite Hm, He. vm_compute. reflexivity.
Qed.

(** ** Label selectors (C3) *)

Lemma maplen_zero_entries {V : Type} (m : gomap string V) : maplen m = 0 ↔ entries m = [].
Proof.
  destruct m as [g|]; simpl; [|done].
  by rewrite map_size_empty_iff, map_to_list_empty_iff.
Qed.

(** A label read from a map equals a non-empty value only if the map holds
    the entry; a map that holds the entry reads that value. *)
Lemma index_entries (m : gomap string string) (label value : string) :
  (label, value) ∈ entries m → index m label = value.
Proof.
  destruct m as [g|]; simpl.
  - intros Hin%elem_of_map_to_list. by rewrite Hin.
  - intros Hin. by apply elem_of_nil in Hin.
Qed.


(** The expressions loop of lines 239-244 and 262-267. *)
Lemma expressions_loop (matchExpressions excludeExpressions : list LabelSelectorRequirement) :
  range matchExpressions (λ matchExpression,
    return_if (negb (sets_Has
                 (list_to_set (json_Marshal_LabelSelectorRequirement <$> excludeExpressions))
                 (json_Marshal_LabelSelectorRequirement matchExpression))) (@nil FieldError))
  = None
  ↔ ∀ x, x ∈ matchExpressions →
      ∃ y, y ∈ excludeExpressions
           ∧ json_Marshal_LabelSelectorRequirement x = json_Marshal_LabelSelectorRequirement y.
Proof.
  rewrite range_None. apply forall_proper; intros x.
  rewrite return_if_None, negb_false_iff, sets_Has_list_to_set, list_elem_of_fmap.
  split; intros Hx Hin; destruct (Hx Hin) as (y & Hy1 & Hy2); eauto.
Qed.

(** The labels loop of lines 250-254 and 273-277. *)
Lemma labels_loop (matchLabels excludeLabels : gomap string string) :
  range (entries matchLabels) (λ '(label, value),
    return_if (negb (String.eqb (index excludeLabels label) value)) (@nil FieldError))
  = None
  ↔ ∀ label value, (label, value) ∈ entries matchLabels → index excludeLabels label = value.
Proof.
  rewrite range_None. split.
  - intros Hall label value Hin. specialize (Hall _ Hin). simpl in Hall.
    apply return_if_None, negb_false_iff in Hall. by apply String.eqb_eq.
  - intros Hall [label value] Hin.
    apply return_if_None, negb_false_iff, String.eqb_eq. by apply Hall.
Qed.

(** The body shared by the selector block and the namespace selector block
    when both sides define the selector. *)
Lemma selector_guard (mSel eSel : LabelSelector) :
  ((if (0 <? size (list_to_set (C:=gset (string * string * list string))
                     (json_Marshal_LabelSelectorRequirement <$> elems (MatchExpressions eSel))))
    then
      return_if (len (MatchExpressions mSel) =? 0) (@nil FieldError) ;>
      range (elems (MatchExpressions mSel)) (λ matchExpression,
        return_if (negb (sets_Has
                     (list_to_set (json_Marshal_LabelSelectorRequirement
                                     <$> elems (MatchExpressions eSel)))
                     (json_Marshal_LabelSelectorRequirement matchExpression))) [])
    else None) ;>
   (if (0 <? maplen (MatchLabels eSel)) then
      return_if (maplen (MatchLabels mSel) =? 0) [] ;>
      range (entries (MatchLabels mSel)) (λ '(label, value),
        return_if (negb (String.eqb (index (MatchLabels eSel) label) value)) [])
    else None)) = None
  ↔ (elems (MatchExpressions eSel) ≠ [] →
       elems (MatchExpressions mSel) ≠ []
       ∧ ∀ x, x ∈ elems (MatchExpressions mSel) →
           ∃ y, y ∈ elems (MatchExpressions eSel)
                ∧ json_Marshal_LabelSelectorRequirement x
                  = json_Marshal_LabelSelectorRequirement y)
    ∧ (entries (MatchLabels eSel) ≠ [] →
       entries (MatchLabels mSel) ≠ []
       ∧ ∀ label value, (label, value) ∈ entries (MatchLabels mSel) →
           index (MatchLabels eSel) label = value).
Proof.
  rewrite seq_None. apply Morphisms_Prop.and_iff_morphism.
  - destruct (0 <? size _) eqn:Hsize.
    + apply Nat.ltb_lt in Hsize.
      assert (elems (MatchExpressions eSel) ≠ []) as Hne.
      { intros Hnil. rewrite Hnil in Hsize.
        change (0 < size (∅ : gset (string * string * list string))) in Hsize.
        rewrite size_empty in Hsize. lia. }
      rewrite seq_None, return_if_None, Nat.eqb_neq, len_zero_elems, expressions_loop.
      naive_solver.
    + apply Nat.ltb_ge in Hsize.
      assert (elems (MatchExpressions eSel) = []) as Hnil.
      { destruct (elems (MatchExpressions eSel)) as [|y ys] eqn:Hel; [done|].
        assert (json_Marshal_LabelSelectorRequirement <$> y :: ys = []) as Hmap; [|done].
        apply (size_list_to_set_zero (K:=string * string * list string)). lia. }
      split; [intros _ Hne; by destruct Hne | done].
  - destruct (0 <? maplen (MatchLabels eSel)) eqn:Hsize.
    + apply Nat.ltb_lt in Hsize.
      assert (entries (MatchLabels eSel) ≠ []) as Hne.
      { rewrite <- maplen_zero_entries. lia. }
      rewrite seq_None, return_if_None, Nat.eqb_neq, maplen_zero_entries, labels_loop.
      naive_solver.
    + apply Nat.ltb_ge in Hsize.
      assert (entries (MatchLabels eSel) = []) as Hnil.
      { apply maplen_zero_entries. lia. }
      split; [intros _ Hne; by destruct Hne | done].
Qed.


(** ** The empty exclude (C4) *)

(** An exclude side that is the zero value (every slice, map and pointer
    nil) never conflicts, whatever the match side holds. *)
Lemma zero_exclude_no_error (r : Rule) (path : Path) :
  rule_ExcludeResources r = MatchResources_zero →
  ValidateMathExcludeConflict r path = [].
Proof.
  intros He. unfold ValidateMathExcludeConflict, beforeNames.
  destruct (chkAll r) as [res|] eqn:HAll; simpl.
  { by apply chkAll_nil in HAll as ->. }
  rewrite (chkAny_unpopulated r path); [|right; by rewrite He]. simpl.
  unfold chkEmptyExclude. rewrite He.
  assert (reflect_DeepEqual (any_MatchResources MatchResources_zero)
            (any_MatchResources MatchResources_zero) = true) as ->
    by by apply reflect_DeepEqual_true.
  done.
Qed.

(** ** The effect count (C6, C10) *)

Lemma HasMutate_spec (r : Rule) :
  HasMutate r = bool_decide (rule_Mutation r ≠ Mutation_zero).
Proof.
  unfold HasMutate, reflect_DeepEqual. rewrite <- bool_decide_not.
  apply bool_decide_ext. split; intros Hne Heq; apply Hne; congruence.
Qed.

Lemma HasValidate_spec (r : Rule) :
  HasValidate r = bool_decide (rule_Validation r ≠ Validation_zero).
Proof.
  unfold HasValidate, reflect_DeepEqual. rewrite <- bool_decide_not.
  apply bool_decide_ext. split; intros Hne Heq; apply Hne; congruence.
Qed.

Lemma HasGenerate_spec (r : Rule) :
  HasGenerate r = bool_decide (rule_Generation r ≠ Generation_zero).
Proof.
  unfold HasGenerate, reflect_DeepEqual. rewrite <- bool_decide_not.
  apply bool_decide_ext. split; intros Hne Heq; apply Hne; congruence.
Qed.

(** The comparison in [HasVerifyImages] is between a slice and a struct,
    values of distinct types, so only the nil test decides. *)
Lemma HasVerifyImages_spec (r : Rule) :
  HasVerifyImages r = bool_decide (rule_VerifyImages r ≠ None).
Proof.
  unfold HasVerifyImages, reflect_DeepEqual.
  rewrite (bool_decide_eq_false_2 (any_ImageVerifications _ = any_ImageVerification _));
    [|discriminate].
  simpl. rewrite andb_true_r. by rewrite bool_decide_not.
Qed.

(** C6: with exactly one effect field different from its zero value
    (mutation, validation and generation against the empty struct, the
    verifyImages list against nil) the operation check returns no error;
    with none it returns exactly one error, the no-operation one; with two
    or more exactly one error, the multiple-operations one. *)
Theorem operation_exclusivity (r : Rule) (path : Path) :
  let declared :=
    [bool_decide (rule_Mutation r ≠ Mutation_zero);
     bool_decide (rule_Validation r ≠ Validation_zero);
     bool_decide (rule_Generation r ≠ Generation_zero);
     bool_decide (rule_VerifyImages r ≠ None)] in
  let n := List.length (List.filter id declared) in
  (n = 1 → ValidateRuleType r path = [])
  ∧ (n = 0 →
     ValidateRuleType r path
     = [field_Invalid path (any_Rule r) (noOperationDetail (rule_Name r))])
  ∧ (2 ≤ n →
     ValidateRuleType r path
     = [field_Invalid path (any_Rule r) (multipleOperationsDetail (rule_Name r))])
  ∧ (n ≠ 1 → List.length (ValidateRuleType r path) = 1).
Proof.
  unfold ValidateRuleType.
  rewrite HasMutate_spec, HasValidate_spec, HasGenerate_spec, HasVerifyImages_spec.
  destruct (bool_decide (rule_Mutation r ≠ Mutation_zero)),
    (bool_decide (rule_Validation r ≠ Validation_zero)),
    (bool_decide (rule_Generation r ≠ Generation_zero)),
    (bool_decide (rule_VerifyImages r ≠ None));
    simpl; repeat split; intros; first [reflexivity | lia].
Qed.

(** C10: the verify-images effect counts as declared exactly when the
    verifyImages list is non-nil, an empty non-nil list included; with an
    empty but present list and another non-empty effect the rule gets the
    multiple-operations error, and with an empty but present list and no
    other effect it gets no error. *)
Theorem verify_images_declared_when_non_nil (r : Rule) (path : Path) :
  (HasVerifyImages r = true ↔ rule_VerifyImages r ≠ None)
  ∧ (rule_VerifyImages r = Some [] → HasVerifyImages r = true)
  ∧ (rule_VerifyImages r = Some [] →
     (rule_Mutation r ≠ Mutation_zero ∨ rule_Validation r ≠ Validation_zero
      ∨ rule_Generation r ≠ Generation_zero) →
     ValidateRuleType r path
     = [field_Invalid path (any_Rule r) (multipleOperationsDetail (rule_Name r))])
  ∧ (rule_VerifyImages r = Some [] →
     rule_Mutation r = Mutation_zero → rule_Validation r = Validation_zero →
     rule_Generation r = Generation_zero →
     ValidateRuleType r path = []).
Proof.
  rewrite HasVerifyImages_spec, bool_decide_eq_true.
  split; [done|]. split; [by intros ->|]. split.
  - intros Himages Hother. unfold ValidateRuleType.
    rewrite HasMutate_spec, HasValidate_spec, HasGenerate_spec, HasVerifyImages_spec.
    rewrite (bool_decide_eq_true_2 (rule_VerifyImages r ≠ None)); [|by rewrite Himages].
    destruct (bool_decide (rule_Mutation r ≠ Mutation_zero)) eqn:Hmutate,
      (bool_decide (rule_Validation r ≠ Validation_zero)) eqn:Hvalidate,
      (bool_decide (rule_Generation r ≠ Generation_zero)) eqn:Hgenerate;
      try reflexivity.
    apply bool_decide_eq_false in Hmutate, Hvalidate, Hgenerate.
    destruct Hother as [Hne | [Hne | Hne]]; by destruct Hne; apply dec_stable.
  - intros Himages Hmutate Hvalidate Hgenerate. unfold ValidateRuleType.
    rewrite HasMutate_spec, HasValidate_spec, HasGenerate_spec, HasVerifyImages_spec.
    rewrite (bool_decide_eq_true_2 (rule_VerifyImages r ≠ None)); [|by rewrite Himages].
    rewrite !bool_decide_eq_false_2; [done | | |]; intros Hne; by apply Hne.
Qed.

(** ** Validate (C8) *)

(** C8: [Validate] returns, in this order, the errors of the operation
    check, those of the conflict detector, those of the structural
    validation of [match] under the child path [match], and those of the
    structural validation of [exclude] under the child path [exclude]; each
    phase contributes all of its errors whatever the others return. *)
Theorem validate_concatenates_phases
    (validateSelector : MatchResources → Path → bool → gset string → ErrorList)
    (r : Rule) (path : Path) (namespaced : bool) (clusterResources : gset string) :
  Validate validateSelector r path namespaced clusterResources
  = ValidateRuleType r path
    ++ ValidateMathExcludeConflict r path
    ++ validateSelector (rule_MatchResources r) (Child path "match") namespaced clusterResources
    ++ validateSelector (rule_ExcludeResources r) (Child path "exclude") namespaced
         clusterResources
  ∧ List.length (Validate validateSelector r path namespaced clusterResources)
    = List.length (ValidateRuleType r path)
      + List.length (ValidateMathExcludeConflict r path)
      + List.length (validateSelector (rule_MatchResources r) (Child path "match")
                       namespaced clusterResources)
      + List.length (validateSelector (rule_ExcludeResources r) (Child path "exclude")
                       namespaced clusterResources).
Proof.
  unfold Validate. cbv zeta. rewrite app_nil_l, <- !app_assoc. split; [done|].
  rewrite !length_app. lia.
Qed.

(** ** MatchKinds and ExcludeKinds (C9) *)

Lemma fold_left_go_append {A B : Type} (f : B → list A) (l : list B) (s : slice A) :
  elems (fold_left (λ acc value, go_append acc (f value)) l s)
  = elems s ++ concat (map f l).
Proof.
  revert s. induction l as [|x l IH]; intros s; simpl.
  - by rewrite app_nil_r.
  - by rewrite IH, elems_go_append, <- app_assoc.
Qed.

(** C9: [MatchKinds] holds the direct kinds of [match], then the kinds of
    each [all] entry in list order, then the kinds of each [any] entry in
    list order, and [ExcludeKinds] the same for [exclude]; for a match side
    with kinds [Pod] and one [any] entry with kinds [Deployment] the result
    is [Pod; Deployment]. *)
Theorem kinds_concatenation (r : Rule) :
  let kindsOf (value : ResourceFilter) := elems (Kinds (rf_ResourceDescription value)) in
  elems (MatchKinds r)
  = elems (Kinds (mr_ResourceDescription (rule_MatchResources r)))
    ++ concat (map kindsOf (elems (All (rule_MatchResources r))))
    ++ concat (map kindsOf (elems (Any (rule_MatchResources r))))
  ∧ elems (ExcludeKinds r)
    = elems (Kinds (mr_ResourceDescription (rule_ExcludeResources r)))
      ++ concat (map kindsOf (elems (All (rule_ExcludeResources r))))
      ++ concat (map kindsOf (elems (Any (rule_ExcludeResources r))))
  ∧ (rule_MatchResources r
     = selector (Some [kindsFilter ["Deployment"]]) None (resources (Some ["Pod"]) None None) →
     MatchKinds r = Some ["Pod"; "Deployment"]).
Proof.
  intros kindsOf. unfold MatchKinds, ExcludeKinds. cbv zeta.
  rewrite !(fold_left_go_append kindsOf), <- !app_assoc.
  split; [done|]. split; [done|]. by intros ->.
Qed.

(** ** The shape of the detector's result *)

Lemma chkAny_result (r : Rule) (path : Path) (res : ErrorList) :
  chkAny r path = Some res → res = [] ∨ res = [emptySetError r path].
Proof.
  unfold chkAny. destruct (_ && _); [|done].
  rewrite (range_range_return_if _ _
             (λ rmr rer, reflect_DeepEqual (any_ResourceFilter rmr) (any_ResourceFilter rer))).
  destruct (existsb _ _); simpl; intros [= <-]; auto.
Qed.

Lemma chkNames_result (r : Rule) (path : Path) (res : ErrorList) :
  chkNames r path = Some res → res = [] ∨ res = [emptySetError r path].
Proof.
  unfold chkNames. destruct (0 <? _); [|done].
  rewrite (range_range_return_if _ _ (λ matchName excludeName,
             wildcard_Match excludeName matchName)).
  destruct (_ =? 0); simpl; [intros [= <-]; auto|].
  destruct (existsb _ _); simpl; intros [= <-]; auto.
Qed.

(** A block before the names list that returns ends the detector with no
    error. *)
Ltac skip_block lem :=
  match goal with
  | |- context [ ?g ;> _ ] =>
      let Hg := fresh "Hg" in
      destruct g as [res|] eqn:Hg;
      [ apply lem in Hg; subst res; simpl; auto
      | change (None ;> ?k) with k ]
  end.

Lemma detector_result_cases (r : Rule) (path : Path) :
  ValidateMathExcludeConflict r path = []
  ∨ ValidateMathExcludeConflict r path = [emptySetError r path].
Proof.
  destruct (chkAny r path) as [resAny|] eqn:HAny.
  { unfold ValidateMathExcludeConflict, beforeNames.
    skip_block chkAll_nil. rewrite HAny. simpl. by apply chkAny_result in HAny. }
  destruct (chkNames r path) as [resNames|] eqn:HNames.
  - unfold ValidateMathExcludeConflict, beforeNames.
    skip_block chkAll_nil. rewrite HAny. change (None ;> ?k) with k.
    skip_block chkEmptyExclude_nil. skip_block chkRoles_nil. skip_block chkClusterRoles_nil.
    skip_block chkSubjects_nil. skip_block chkName_nil.
    rewrite HNames. simpl. by apply chkNames_result in HNames.
  - destruct (detector_by_guards r path HAny HNames) as [[_ Herr] | [_ Hnil]]; auto.
Qed.

(** X1: the detector returns either nothing or exactly one error, the
    empty-set error for this rule at this path; it never accumulates
    several. *)
Theorem detector_at_most_one_error (r : Rule) (path : Path) :
  (ValidateMathExcludeConflict r path = []
   ∨ ValidateMathExcludeConflict r path = [emptySetError r path])
  ∧ List.length (ValidateMathExcludeConflict r path) ≤ 1.
Proof.
  destruct (detector_result_cases r path) as [-> | ->]; simpl; split; auto.
Qed.

(** An error that does not come from the [any] block has passed the blocks
    for roles, cluster roles, subjects and the single name, which come
    before the names list. *)
Lemma error_passes_identity_blocks (r : Rule) (path : Path) :
  len (Any (rule_MatchResources r)) = 0 ∨ len (Any (rule_ExcludeResources r)) = 0 →
  ValidateMathExcludeConflict r path ≠ [] →
  chkAll r = None ∧ chkEmptyExclude r = None ∧ chkRoles r = None
  ∧ chkClusterRoles r = None ∧ chkSubjects r = None ∧ chkName r = None.
Proof.
  intros HAny%(chkAny_unpopulated r path).
  unfold ValidateMathExcludeConflict, beforeNames. rewrite HAny.
  destruct (chkAll r) as [res|] eqn:H1;
    [apply chkAll_nil in H1 as ->; simpl; by intros []|].
  change (None ;> None ;> ?k) with k.
  destruct (chkEmptyExclude r) as [res|] eqn:H2;
    [apply chkEmptyExclude_nil in H2 as ->; simpl; by intros []|].
  destruct (chkRoles r) as [res|] eqn:H3;
    [apply chkRoles_nil in H3 as ->; simpl; by intros []|].
  destruct (chkClusterRoles r) as [res|] eqn:H4;
    [apply chkClusterRoles_nil in H4 as ->; simpl; by intros []|].
  destruct (chkSubjects r) as [res|] eqn:H5;
    [apply chkSubjects_nil in H5 as ->; simpl; by intros []|].
  destruct (chkName r) as [res|] eqn:H6;
    [apply chkName_nil in H6 as ->; simpl; by intros []|].
  done.
Qed.

(** ** Roles, cluster roles and subjects *)

(** X3: an empty-set error that does not come from the [any] block is
    reported only if, [exclude.roles] being non-empty, [match.roles] is
    non-empty and each match role is among the exclude roles, and likewise
    for the cluster roles; the names list cannot bring the error back,
    since the roles are looked at first. *)
Theorem roles_within_exclude (r : Rule) (path : Path) :
  let mUser := mr_UserInfo (rule_MatchResources r) in
  let eUser := mr_UserInfo (rule_ExcludeResources r) in
  let contained (mat exclude : slice string) :=
    elems mat ≠ [] ∧ ∀ x, x ∈ elems mat → x ∈ elems exclude in
  len (Any (rule_MatchResources r)) = 0 ∨ len (Any (rule_ExcludeResources r)) = 0 →
  ValidateMathExcludeConflict r path ≠ [] →
  (0 < len (Roles eUser) → contained (Roles mUser) (Roles eUser))
  ∧ (0 < len (ClusterRoles eUser) → contained (ClusterRoles mUser) (ClusterRoles eUser)).
Proof.
  intros mUser eUser contained HAny Herr.
  destruct (error_passes_identity_blocks r path HAny Herr)
    as (_ & _ & HRoles & HClusterRoles & _ & _).
  split; intros Hlen%len_pos_elems.
  - apply containment_guard in HRoles; done.
  - apply containment_guard in HClusterRoles; done.
Qed.

(** The text a subject is marshalled to determines the subject. *)
Lemma json_Marshal_Subject_inj (s s' : Subject) :
  json_Marshal_Subject s = json_Marshal_Subject s' → s = s'.
Proof. destruct s, s'. unfold json_Marshal_Subject. simpl. by intros [= -> -> -> ->]. Qed.

(** The subjects block (lines 187-197) on any two subject lists. *)
Lemma subjects_guard (exclude mat : slice Subject) :
  (if 0 <? size (list_to_set (C:=gset (string * string * string * string))
                   (json_Marshal_Subject <$> elems exclude))
   then
     return_if (len mat =? 0) (@nil FieldError) ;>
     range (elems mat) (λ subject,
       return_if (negb (sets_Has (list_to_set (json_Marshal_Subject <$> elems exclude))
                          (json_Marshal_Subject subject))) [])
   else None) = None
  ↔ (elems exclude ≠ [] → elems mat ≠ [] ∧ ∀ s, s ∈ elems mat → s ∈ elems exclude).
Proof.
  assert (∀ s, sets_Has (list_to_set (C:=gset (string * string * string * string))
                           (json_Marshal_Subject <$> elems exclude))
                 (json_Marshal_Subject s) = true ↔ s ∈ elems exclude) as Hhas.
  { intros s. rewrite sets_Has_list_to_set, list_elem_of_fmap. split.
    - intros (s' & Heq & Hin). by apply json_Marshal_Subject_inj in Heq as ->.
    - intros Hin. by exists s. }
  destruct (0 <? size _) eqn:Hsize.
  - apply Nat.ltb_lt in Hsize.
    assert (elems exclude ≠ []) as Hne.
    { intros Hnil. rewrite Hnil in Hsize.
      change (0 < size (∅ : gset (string * string * string * string))) in Hsize.
      rewrite size_empty in Hsize. lia. }
    rewrite seq_None, return_if_None, Nat.eqb_neq, len_zero_elems, range_None.
    split.
    + intros [Hm Hall] _. split; [done|]. intros s Hin.
      apply Hhas. specialize (Hall s Hin).
      by apply return_if_None, negb_false_iff in Hall.
    + intros Hcontained. destruct (Hcontained Hne) as [Hm Hall]. split; [done|].
      intros s Hin. apply return_if_None, negb_false_iff, Hhas. by apply Hall.
  - apply Nat.ltb_ge in Hsize.
    assert (elems exclude = []) as Hnil.
    { destruct (elems exclude) as [|y ys] eqn:Hel; [done|].
      assert (json_Marshal_Subject <$> y :: ys = []) as Hmap; [|done].
      apply (size_list_to_set_zero (K:=string * string * string * string)). lia. }
    split; [intros _ Hne; by destruct Hne | done].
Qed.


(** ** The single name *)

(** One step of [deepMatchRune] on a non-empty pattern. *)
Lemma deepMatchRune_cons (p : ascii) (pattern str : list ascii) :
  deepMatchRune (p :: pattern) str =
    if Ascii.eqb p star then
      deepMatchRune pattern str
      || match str with [] => false | _ :: str' => deepMatchRune (p :: pattern) str' end
    else if Ascii.eqb p qmark then
      match str with [] => false | _ :: str' => deepMatchRune pattern str' end
    else
      match str with
      | [] => false
      | c :: str' => if Ascii.eqb c p then deepMatchRune pattern str' else false
      end.
Proof.
  destruct str; simpl; destruct (Ascii.eqb p star); try reflexivity;
    destruct (Ascii.eqb p qmark); reflexivity.
Qed.


(** Only a pattern made of stars matches the empty name. *)
Lemma deepMatchRune_empty_name (pattern : list ascii) :
  deepMatchRune pattern [] = true ↔ Forall (λ c, c = star) pattern.
Proof.
  induction pattern as [|p pattern IH]; [split; [constructor | done]|].
  rewrite deepMatchRune_cons, orb_false_r.
  destruct (Ascii.eqb p star) eqn:Hstar.
  - apply Ascii.eqb_eq in Hstar as ->. rewrite IH. split.
    + by constructor.
    + by intros [_ Hrest]%Forall_cons.
  - apply Ascii.eqb_neq in Hstar.
    assert ((if Ascii.eqb p qmark then false else false) = false) as ->
      by by destruct (Ascii.eqb p qmark).
    split; [done|]. by intros [Hp _]%Forall_cons.
Qed.

(** Every pattern matches its own text. *)
Lemma deepMatchRune_refl (pattern : list ascii) : deepMatchRune pattern pattern = true.
Proof.
  induction pattern as [|p pattern IH]; [done|].
  rewrite deepMatchRune_cons.
  destruct (Ascii.eqb p star) eqn:Hstar.
  - apply orb_true_iff. right.
    destruct pattern as [|q pattern]; [by rewrite deepMatchRune_cons, Hstar|].
    by rewrite deepMatchRune_cons, Hstar, IH.
  - destruct (Ascii.eqb p qmark); [done|]. by rewrite Ascii.eqb_refl.
Qed.

Lemma wildcard_Match_refl (pattern : string) : wildcard_Match pattern pattern = true.
Proof.
  unfold wildcard_Match.
  destruct (String.eqb pattern "") eqn:Hempty; [apply String.eqb_refl|].
  destruct (String.eqb pattern "*"); [done|]. apply deepMatchRune_refl.
Qed.


(** What the block of lines 198-202 lets through. *)
Lemma chkName_None (r : Rule) :
  chkName r = None
  ↔ (Name (mr_ResourceDescription (rule_ExcludeResources r)) ≠ "" →
     wildcard_Match (Name (mr_ResourceDescription (rule_ExcludeResources r)))
                    (Name (mr_ResourceDescription (rule_MatchResources r))) = true).
Proof.
  unfold chkName.
  destruct (String.eqb _ "") eqn:Hempty; simpl.
  - apply String.eqb_eq in Hempty. split; [by intros _ Hne | done].
  - apply String.eqb_neq in Hempty. rewrite return_if_None, negb_false_iff. naive_solver.
Qed.


(** X6: when [exclude.name] is set and [match.name] is not, an empty-set
    error that does not come from the [any] block is reported only if
    [exclude.name] consists of stars alone. *)
Theorem unset_match_name_needs_star_exclude_name (r : Rule) (path : Path) :
  let mRes := mr_ResourceDescription (rule_MatchResources r) in
  let eRes := mr_ResourceDescription (rule_ExcludeResources r) in
  len (Any (rule_MatchResources r)) = 0 ∨ len (Any (rule_ExcludeResources r)) = 0 →
  Name eRes ≠ "" →
  Name mRes = "" →
  ValidateMathExcludeConflict r path ≠ [] →
  Forall (λ c, c = star) (list_ascii_of_string (Name eRes)).
Proof.
  intros mRes eRes HAny Hset Hunset Herr.
  destruct (error_passes_identity_blocks r path HAny Herr) as (_ & _ & _ & _ & _ & HName).
  apply chkName_None in HName; [|exact Hset]. fold mRes eRes in HName.
  rewrite Hunset in HName. unfold wildcard_Match in HName.
  apply String.eqb_neq in Hset. rewrite Hset in HName.
  destruct (String.eqb (Name eRes) "*") eqn:Hstar.
  - apply String.eqb_eq in Hstar. rewrite Hstar. simpl. by repeat constructor.
  - by apply deepMatchRune_empty_name.
Qed.

(** ** Selector presence and annotations *)

(** X7: an empty-set error of the final return is reported only if the
    label selector is defined on both sides or on neither, and likewise the
    namespace selector. *)
Theorem selectors_defined_on_both_sides_or_neither (r : Rule) (path : Path) :
  let mRes := mr_ResourceDescription (rule_MatchResources r) in
  let eRes := mr_ResourceDescription (rule_ExcludeResources r) in
  len (Any (rule_MatchResources r)) = 0 ∨ len (Any (rule_ExcludeResources r)) = 0 →
  len (Names eRes) = 0 →
  ValidateMathExcludeConflict r path ≠ [] →
  (Selector mRes = None ↔ Selector eRes = None)
  ∧ (NamespaceSelector mRes = None ↔ NamespaceSelector eRes = None).
Proof.
  intros mRes eRes HAny HNames Herr.
  pose proof (error_passes_guards r path HAny HNames Herr) as Hguards.
  rewrite Forall_forall in Hguards.
  assert (chkSelectorPresence r = None) as HSel
    by (apply Hguards; unfold guards; do 10 right; left).
  assert (chkNamespaceSelectorPresence r = None) as HNs
    by (apply Hguards; unfold guards; do 11 right; left).
  unfold chkSelectorPresence in HSel. unfold chkNamespaceSelectorPresence in HNs.
  fold mRes eRes in HSel, HNs. apply return_if_None in HSel, HNs.
  split.
  - destruct (Selector mRes), (Selector eRes); simpl in HSel; try discriminate; done.
  - destruct (NamespaceSelector mRes), (NamespaceSelector eRes); simpl in HNs;
      try discriminate; done.
Qed.

(** The two annotation blocks (lines 288-296) fall through exactly when
    the annotations of both sides are the same, a nil map being different
    from an empty one. *)
Lemma annotations_guard (r : Rule) :
  chkAnnotations r = None ∧ chkAnnotationsPresence r = None
  ↔ Annotations (mr_ResourceDescription (rule_MatchResources r))
    = Annotations (mr_ResourceDescription (rule_ExcludeResources r)).
Proof.
  unfold chkAnnotations, chkAnnotationsPresence, reflect_DeepEqual.
  destruct (Annotations (mr_ResourceDescription (rule_MatchResources r))) as [ma|],
    (Annotations (mr_ResourceDescription (rule_ExcludeResources r))) as [ea|]; simpl.
  - rewrite return_if_None, negb_false_iff, bool_decide_eq_true. split.
    + by intros [[= ->] _].
    + by intros [= ->].
  - split; [by intros [_ ?] | done].
  - split; [by intros [_ ?] | done].
  - done.
Qed.

(** X8: an empty-set error of the final return is reported only if the
    annotations of [match] and of [exclude] are the same map, or nil on
    both sides; annotations that are nil on one side and empty on the other
    rule the error out. *)
Theorem annotations_equal_on_both_sides (r : Rule) (path : Path) :
  let mRes := mr_ResourceDescription (rule_MatchResources r) in
  let eRes := mr_ResourceDescription (rule_ExcludeResources r) in
  len (Any (rule_MatchResources r)) = 0 ∨ len (Any (rule_ExcludeResources r)) = 0 →
  len (Names eRes) = 0 →
  ValidateMathExcludeConflict r path ≠ [] →
  Annotations mRes = Annotations eRes.
Proof.
  intros mRes eRes HAny HNames Herr.
  pose proof (error_passes_guards r path HAny HNames Herr) as Hguards.
  rewrite Forall_forall in Hguards.
  apply annotations_guard. split; apply Hguards; unfold guards;
    [do 12 right | do 13 right]; left.
Qed.

(** ** The same selector on both sides *)

(** When [match] and [exclude] are the same selector, without an [all]
    list and not the zero value, every block other than the [any] block and
    the names block falls through. *)
Lemma identical_sides_pass_guards (r : Rule) :
  rule_MatchResources r = rule_ExcludeResources r →
  len (All (rule_ExcludeResources r)) = 0 →
  rule_ExcludeResources r ≠ MatchResources_zero →
  Forall (λ g, g = None) (guards r).
Proof.
  intros Hme HAll Hnz. unfold guards.
  assert (∀ l : slice string,
            elems l ≠ [] → elems l ≠ [] ∧ ∀ x, x ∈ elems l → x ∈ elems l) as Hself by auto.
  repeat apply Forall_cons_2; [..|apply Forall_nil_2].
  - unfold chkAll. by rewrite Hme, HAll.
  - unfold chkEmptyExclude, reflect_DeepEqual. apply return_if_None, bool_decide_eq_false.
    by intros [= Heq].
  - unfold chkRoles, excludeRoles. rewrite Hme. apply containment_guard, Hself.
  - unfold chkClusterRoles, excludeClusterRoles. rewrite Hme. apply containment_guard, Hself.
  - unfold chkSubjects, excludeSubjects. rewrite Hme. apply subjects_guard. auto.
  - apply chkName_None. rewrite Hme. intros _. apply wildcard_Match_refl.
  - unfold chkNamespaces, excludeNamespaces. rewrite Hme. apply containment_guard, Hself.
  - unfold chkKinds, excludeKinds. rewrite Hme. apply containment_guard, Hself.
  - unfold chkSelector, excludeSelectorMatchExpressions. rewrite Hme.
    destruct (Selector _) as [sel|]; [|done].
    apply selector_guard. split; intros Hne; (split; [done|]).
    + intros x Hx. by exists x.
    + intros label value Hin. by apply index_entries.
  - unfold chkNamespaceSelector, excludeNamespaceSelectorMatchExpressions. rewrite Hme.
    destruct (NamespaceSelector _) as [sel|]; [|done].
    apply selector_guard. split; intros Hne; (split; [done|]).
    + intros x Hx. by exists x.
    + intros label value Hin. by apply index_entries.
  - unfold chkSelectorPresence. rewrite Hme. by destruct (bool_decide _).
  - unfold chkNamespaceSelectorPresence. rewrite Hme. by destruct (bool_decide _).
  - apply annotations_guard. by rewrite Hme.
  - apply annotations_guard. by rewrite Hme.
Qed.

(** X9: a rule whose [exclude] is the same selector as its [match], without
    an [all] list and with at least one field set, is always reported as
    matching an empty set, whichever fields it uses ([any] entries, names,
    wildcards, selectors, annotations). *)
Theorem identical_match_and_exclude_conflict (r : Rule) (path : Path) :
  rule_MatchResources r = rule_ExcludeResources r →
  len (All (rule_ExcludeResources r)) = 0 →
  rule_ExcludeResources r ≠ MatchResources_zero →
  ValidateMathExcludeConflict r path = [emptySetError r path].
Proof.
  intros Hme HAll Hnz.
  pose proof (identical_sides_pass_guards r Hme HAll Hnz) as Hguards.
  destruct (elems (Any (rule_ExcludeResources r))) as [|rer rest] eqn:HAny.
  - assert (chkAny r path = None) as HchkAny.
    { apply chkAny_unpopulated. right. unfold len. by rewrite HAny. }
    destruct (elems (Names (mr_ResourceDescription (rule_ExcludeResources r))))
      as [|name names] eqn:HNames.
    + assert (chkNames r path = None) as HchkNames.
      { apply chkNames_unpopulated. unfold len. by rewrite HNames. }
      destruct (detector_by_guards r path HchkAny HchkNames) as [[_ Herr] | [Hex _]];
        [done|].
      apply Exists_exists in Hex as (g & Hin & Hg).
      rewrite Forall_forall in Hguards. by destruct Hg; apply Hguards.
    + unfold guards in Hguards.
      apply Forall_cons in Hguards as [H1 Hguards].
      apply Forall_cons in Hguards as [H2 Hguards].
      apply Forall_cons in Hguards as [H3 Hguards].
      apply Forall_cons in Hguards as [H4 Hguards].
      apply Forall_cons in Hguards as [H5 Hguards].
      apply Forall_cons in Hguards as [H6 _].
      unfold ValidateMathExcludeConflict, beforeNames.
      rewrite H1, HchkAny, H2, H3, H4, H5, H6. simpl.
      rewrite chkNames_populated; [|unfold len; rewrite HNames; simpl; lia].
      rewrite Hme. unfold len. rewrite HNames. simpl.
      by rewrite wildcard_Match_refl.
  - unfold guards in Hguards. apply Forall_cons in Hguards as [H1 _].
    unfold ValidateMathExcludeConflict, beforeNames. rewrite H1. simpl.
    rewrite chkAny_populated; [|rewrite ?Hme; unfold len; rewrite HAny; simpl; lia..].
    rewrite Hme, HAny. simpl.
    by rewrite (proj2 (reflect_DeepEqual_true _ _) eq_refl).
Qed.

(** X2: an exclude side that is the zero value, every slice, map and
    pointer nil and the name empty, never conflicts, whatever the match
    side holds. *)
Theorem unset_exclude_never_conflicts (r : Rule) (path : Path) :
  rule_ExcludeResources r = MatchResources_zero →
  ValidateMathExcludeConflict r path = [].
Proof. apply zero_exclude_no_error. Qed.

(** ** Errors of the rule's own checks *)

Lemma ValidateRuleType_cases (r : Rule) (path : Path) :
  ValidateRuleType r path = []
  ∨ ValidateRuleType r path
    = [field_Invalid path (any_Rule r) (noOperationDetail (rule_Name r))]
  ∨ ValidateRuleType r path
    = [field_Invalid path (any_Rule r) (multipleOperationsDetail (rule_Name r))].
Proof.
  unfold ValidateRuleType.
  destruct (HasMutate r), (HasValidate r), (HasGenerate r), (HasVerifyImages r);
    simpl; auto.
Qed.

(** X10: [Validate] adds at most two errors of its own, one from the
    operation check and one from the conflict detector, to those of the
    structural validation of [match] and of [exclude], and it returns no
    error exactly when none of the four phases does. *)
Theorem validate_own_errors_bounded
    (validateSelector : MatchResources → Path → bool → gset string → ErrorList)
    (r : Rule) (path : Path) (namespaced : bool) (clusterResources : gset string) :
  let matchErrors :=
    validateSelector (rule_MatchResources r) (Child path "match") namespaced clusterResources in
  let excludeErrors :=
    validateSelector (rule_ExcludeResources r) (Child path "exclude") namespaced
      clusterResources in
  List.length matchErrors + List.length excludeErrors
    ≤ List.length (Validate validateSelector r path namespaced clusterResources)
    ≤ 2 + List.length matchErrors + List.length excludeErrors
  ∧ (Validate validateSelector r path namespaced clusterResources = []
     ↔ ValidateRuleType r path = [] ∧ ValidateMathExcludeConflict r path = []
       ∧ matchErrors = [] ∧ excludeErrors = []).
Proof.
  intros matchErrors excludeErrors. unfold Validate. cbv zeta.
  fold matchErrors excludeErrors. rewrite app_nil_l. split.
  - rewrite !length_app.
    destruct (ValidateRuleType_cases r path) as [-> | [-> | ->]],
      (detector_result_cases r path) as [-> | ->]; simpl; lia.
  - split.
    + intros Heq. apply app_eq_nil in Heq as [Heq Hexclude].
      apply app_eq_nil in Heq as [Heq Hmatch]. apply app_eq_nil in Heq as [Htype Hconflict].
      done.
    + by intros (-> & -> & -> & ->).
Qed.

(** X11: every error of the operation check and of the conflict detector
    is an invalid-value error at the path given for the rule, carrying the
    rule itself as the rejected value. *)
Theorem own_errors_are_invalid_at_rule_path (r : Rule) (path : Path) :
  Forall (λ err, err_Type err = ErrorTypeInvalid
                 ∧ err_Field err = path
                 ∧ err_BadValue err = any_Rule r)
         (ValidateRuleType r path ++ ValidateMathExcludeConflict r path).
Proof.
  apply Forall_app. split.
  - destruct (ValidateRuleType_cases r path) as [-> | [-> | ->]]; by repeat constructor.
  - destruct (detector_result_cases r path) as [-> | ->]; by repeat constructor.
Qed.

(** ** More on MatchKinds and ExcludeKinds *)

Lemma elem_of_concat_map {A B : Type} (f : B → list A) (l : list B) (x : A) :
  x ∈ concat (map f l) ↔ ∃ y, y ∈ l ∧ x ∈ f y.
Proof.
  rewrite list_elem_of_In, in_concat. split.
  - intros (ys & Hys & Hx). apply in_map_iff in Hys as (y & <- & Hy).
    exists y. by rewrite !list_elem_of_In.
  - intros (y & Hy & Hx). exists (f y). rewrite in_map_iff. split.
    + exists y. split; [done|]. by apply list_elem_of_In.
    + by apply list_elem_of_In.
Qed.

Lemma fold_left_go_append_None {A B : Type} (f : B → list A) (l : list B) (s : slice A) :
  fold_left (λ acc value, go_append acc (f value)) l s = None
  ↔ s = None ∧ Forall (λ value, f value = []) l.
Proof.
  revert s. induction l as [|x l IH]; intros s; simpl.
  - split; [by intros -> | by intros [-> _]].
  - rewrite IH, Forall_cons. unfold go_append.
    destruct s as [xs|], (f x) as [|y ys]; simpl; intuition congruence.
Qed.

(** X12: a kind is in [MatchKinds] exactly when it is among the direct
    kinds of [match] or among the kinds of an entry of [match.all] or
    [match.any], and likewise for [ExcludeKinds] on [exclude]; kinds of the
    other side never appear. *)
Theorem kinds_membership (r : Rule) (kind : string) :
  let among (sel : MatchResources) :=
    kind ∈ elems (Kinds (mr_ResourceDescription sel))
    ∨ ∃ entry, (entry ∈ elems (All sel) ∨ entry ∈ elems (Any sel))
               ∧ kind ∈ elems (Kinds (rf_ResourceDescription entry)) in
  (kind ∈ elems (MatchKinds r) ↔ among (rule_MatchResources r))
  ∧ (kind ∈ elems (ExcludeKinds r) ↔ among (rule_ExcludeResources r)).
Proof.
  intros among. unfold MatchKinds, ExcludeKinds, among. cbv zeta.
  rewrite !(fold_left_go_append (λ value, elems (Kinds (rf_ResourceDescription value)))).
  rewrite !elem_of_app, !elem_of_concat_map.
  split; (split;
    [ intros [[Hd | (y & Hy & Hk)] | (y & Hy & Hk)]; eauto
    | intros [Hd | (y & [Hy | Hy] & Hk)]; eauto 6 ]).
Qed.

(** X13: [MatchKinds] is nil exactly when the direct kinds of [match] are
    nil and no entry of [match.all] or [match.any] has a kind; direct kinds
    that are present but empty give a result that is not nil.  Likewise
    for [ExcludeKinds]. *)
Theorem kinds_nil_result (r : Rule) :
  let unset (sel : MatchResources) :=
    Kinds (mr_ResourceDescription sel) = None
    ∧ Forall (λ entry, elems (Kinds (rf_ResourceDescription entry)) = []) (elems (All sel))
    ∧ Forall (λ entry, elems (Kinds (rf_ResourceDescription entry)) = []) (elems (Any sel)) in
  (MatchKinds r = None ↔ unset (rule_MatchResources r))
  ∧ (ExcludeKinds r = None ↔ unset (rule_ExcludeResources r)).
Proof.
  intros unset. unfold MatchKinds, ExcludeKinds, unset. cbv zeta.
  rewrite !(fold_left_go_append_None (λ value, elems (Kinds (rf_ResourceDescription value)))).
  tauto.
Qed.

(** ** The final return *)


End Properties.

(** * The properties on concrete rules *)

(** C1, as the specification states it, fails: the Deployment entry of
    [match.any] has no identical entry in [exclude.any], and the detector
    still returns the empty-set error. *)
Lemma any_conflict_not_every_entry :
  0 < len (Any (rule_MatchResources ruleAnyOneCommon))
  ∧ 0 < len (Any (rule_ExcludeResources ruleAnyOneCommon))
  ∧ kindsFilter ["Deployment"] ∈ elems (Any (rule_MatchResources ruleAnyOneCommon))
  ∧ (kindsFilter ["Deployment"] ∉ elems (Any (rule_ExcludeResources ruleAnyOneCommon)))
  ∧ ValidateMathExcludeConflict ruleAnyOneCommon rulesPath
    = [emptySetError ruleAnyOneCommon rulesPath].
Proof.
  split; [vm_compute; lia|]. split; [vm_compute; lia|].
  split; [right; left|]. split; [|by vm_compute].
  intros Hin. apply list_elem_of_singleton in Hin. discriminate Hin.
Qed.

Lemma any_conflict_some_common_entry_witness :
  ValidateMathExcludeConflict ruleAnyOneCommon rulesPath
  = [emptySetError ruleAnyOneCommon rulesPath].
Proof.
  apply (any_conflict_some_common_entry ruleAnyOneCommon rulesPath).
  - reflexivity.
  - reflexivity.
  - vm_compute. lia.
  - vm_compute. lia.
  - exists (kindsFilter ["Pod"]). split; left.
Defined.

(** C2, as the specification states it, fails: the match-side name [web] is
    matched by no exclude-side pattern, and the detector still returns the
    empty-set error. *)
Lemma names_conflict_not_every_name :
  0 < len (Names (mr_ResourceDescription (rule_ExcludeResources ruleNamesOneMatched)))
  ∧ beforeNames ruleNamesOneMatched rulesPath = None
  ∧ "web" ∈ elems (Names (mr_ResourceDescription (rule_MatchResources ruleNamesOneMatched)))
  ∧ (∀ excludeName,
       excludeName
         ∈ elems (Names (mr_ResourceDescription (rule_ExcludeResources ruleNamesOneMatched))) →
       wildcard_Match excludeName "web" = false)
  ∧ ValidateMathExcludeConflict ruleNamesOneMatched rulesPath
    = [emptySetError ruleNamesOneMatched rulesPath].
Proof.
  split; [vm_compute; lia|]. split; [by vm_compute|].
  split; [right; left|]. split; [|by vm_compute].
  intros excludeName Hin. apply list_elem_of_singleton in Hin. by subst excludeName.
Qed.

Lemma names_conflict_some_name_matched_witness :
  ValidateMathExcludeConflict ruleNamesOneMatched rulesPath
  = [emptySetError ruleNamesOneMatched rulesPath]
  ∨ ValidateMathExcludeConflict ruleNamesOneMatched rulesPath = [].
Proof.
  apply (names_conflict_some_name_matched ruleNamesOneMatched rulesPath).
  - vm_compute. lia.
  - vm_compute. reflexivity.
Defined.



(** C4 at an exclude side whose fields are all empty, the kinds list being
    present but empty: it is not the zero value, no later block returns,
    and the detector reports the empty set. *)
Theorem empty_kinds_exclude_reports_empty_set :
  len (Kinds (mr_ResourceDescription (rule_ExcludeResources ruleEmptyKindsExclude))) = 0
  ∧ chkEmptyExclude ruleEmptyKindsExclude = None
  ∧ ValidateMathExcludeConflict ruleEmptyKindsExclude rulesPath
    = [emptySetError ruleEmptyKindsExclude rulesPath].
Proof. split; [reflexivity|]. split; by vm_compute. Qed.

Lemma all_populated_no_error_witness :
  ValidateMathExcludeConflict ruleWithAll rulesPath = [].
Proof.
  apply (all_populated_no_error ruleWithAll rulesPath).
  left. vm_compute. lia.
Defined.

Lemma operation_exclusivity_witness :
  ValidateRuleType ruleProdStaging rulesPath = [].
Proof.
  apply (operation_exclusivity ruleProdStaging rulesPath).
  vm_compute. reflexivity.
Defined.

Lemma namespaces_kinds_containment_witness :
  ValidateMathExcludeConflict ruleProdStaging rulesPath = [].
Proof.
  apply (namespaces_kinds_containment ruleProdStaging rulesPath).
  - left. reflexivity.
  - reflexivity.
  - reflexivity.
  - reflexivity.
Defined.

Lemma kinds_concatenation_witness :
  MatchKinds rulePodAndDeployment = Some ["Pod"; "Deployment"].
Proof.
  apply (kinds_concatenation rulePodAndDeployment). reflexivity.
Defined.

Lemma verify_images_declared_when_non_nil_witness :
  ValidateRuleType ruleMutateEmptyImages rulesPath
  = [field_Invalid rulesPath (any_Rule ruleMutateEmptyImages)
       (multipleOperationsDetail (rule_Name ruleMutateEmptyImages))].
Proof.
  apply (verify_images_declared_when_non_nil ruleMutateEmptyImages rulesPath).
  - reflexivity.
  - left. discriminate.
Defined.

(** ** Further properties on concrete rules *)

Lemma unset_exclude_never_conflicts_witness :
  ValidateMathExcludeConflict rulePodAndDeployment rulesPath = [].
Proof.
  apply (unset_exclude_never_conflicts rulePodAndDeployment rulesPath). reflexivity.
Defined.

Lemma roles_within_exclude_witness :
  elems (Roles (mr_UserInfo (rule_MatchResources ruleIdentities))) ≠ []
  ∧ ∀ x, x ∈ elems (Roles (mr_UserInfo (rule_MatchResources ruleIdentities))) →
         x ∈ elems (Roles (mr_UserInfo (rule_ExcludeResources ruleIdentities))).
Proof.
  apply (roles_within_exclude ruleIdentities rulesPath).
  - left. reflexivity.
  - vm_compute. discriminate.
  - vm_compute. lia.
Defined.



Lemma unset_match_name_needs_star_exclude_name_witness :
  Forall (λ c, c = star)
    (list_ascii_of_string (Name (mr_ResourceDescription (rule_ExcludeResources ruleStarName)))).
Proof.
  apply (unset_match_name_needs_star_exclude_name ruleStarName rulesPath).
  - left. reflexivity.
  - discriminate.
  - reflexivity.
  - vm_compute. discriminate.
Defined.

Lemma selectors_defined_on_both_sides_or_neither_witness :
  (Selector (mr_ResourceDescription (rule_MatchResources ruleSelectorSubset)) = None
   ↔ Selector (mr_ResourceDescription (rule_ExcludeResources ruleSelectorSubset)) = None)
  ∧ (NamespaceSelector (mr_ResourceDescription (rule_MatchResources ruleSelectorSubset)) = None
     ↔ NamespaceSelector (mr_ResourceDescription (rule_ExcludeResources ruleSelectorSubset))
       = None).
Proof.
  apply (selectors_defined_on_both_sides_or_neither ruleSelectorSubset rulesPath).
  - left. reflexivity.
  - reflexivity.
  - vm_compute. discriminate.
Defined.

Lemma annotations_equal_on_both_sides_witness :
  Annotations (mr_ResourceDescription (rule_MatchResources ruleSelectorSubset))
  = Annotations (mr_ResourceDescription (rule_ExcludeResources ruleSelectorSubset)).
Proof.
  apply (annotations_equal_on_both_sides ruleSelectorSubset rulesPath).
  - left. reflexivity.
  - reflexivity.
  - vm_compute. discriminate.
Defined.

Lemma identical_match_and_exclude_conflict_witness :
  ValidateMathExcludeConflict ruleIdentical rulesPath = [emptySetError ruleIdentical rulesPath].
Proof.
  apply (identical_match_and_exclude_conflict ruleIdentical rulesPath).
  - reflexivity.
  - reflexivity.
  - discriminate.
Defined.

